(** * Authentication and authorization core of the ERP system

    A shallow embedding of the FastAPI backend ([erp_backend/app]) and of
    the session handling of the Streamlit client ([erp_frontend/app.py]),
    followed by the properties of the login, token, ownership and session
    timeout logic.

    Conventions of the embedding:
    - a [datetime] is a number of microseconds since the Unix epoch (the
      resolution of Python's [datetime]); a [timedelta] is a number of
      microseconds;
    - the relational store is a pair of tables kept as lists of rows in
      insertion order, [first()] is the first matching row;
    - a handler is a computation in the monad [M]: it threads the database
      session and either returns a value or raises a Python exception;
    - every clock reading ([datetime.utcnow()], [datetime.now()]) is an
      explicit argument, one per call in the source;
    - the third-party libraries (passlib, python-jose, requests) are either
      class parameters or small models, named after the library. *)

From Stdlib Require Import ZArith List String Ascii Bool Lia Floats.
From Stdlib Require Import DecimalString.
Import ListNotations.
Local Open Scope string_scope.
Local Open Scope Z_scope.

(** ** Time *)

Definition datetime := Z.
Definition timedelta := Z.

(** [timedelta(minutes=m)] *)
Definition minutes (m : Z) : timedelta := m * 60 * 1000000.

(** [calendar.timegm(t.utctimetuple())]: whole seconds, microseconds dropped. *)
Definition timegm (t : datetime) : Z := t / 1000000.

(** ** Python values used by the token payload *)

Inductive Any : Type :=
| Str (s : string)
| Int (z : Z)
| Datetime (t : datetime).

(** A [dict] with string keys, kept in insertion order (the order in which
    the payload is serialised). *)
Definition Dict := list (string * Any).

Fixpoint dict_get (d : Dict) (k : string) : option Any :=
  match d with
  | [] => None
  | (k', v) :: d' => if String.eqb k' k then Some v else dict_get d' k
  end.

Fixpoint dict_set (d : Dict) (k : string) (v : Any) : Dict :=
  match d with
  | [] => [(k, v)]
  | (k', v') :: d' =>
      if String.eqb k' k then (k', v) :: d' else (k', v') :: dict_set d' k v
  end.

(** [d.update(other)] *)
Definition dict_update (d other : Dict) : Dict :=
  fold_left (fun acc kv => dict_set acc (fst kv) (snd kv)) other d.

(** [c in s] for a one-character [c]. *)
Fixpoint contains_char (c : ascii) (s : string) : bool :=
  match s with
  | EmptyString => false
  | String c' s' => if Ascii.eqb c' c then true else contains_char c s'
  end.

(** ** models.py *)

Module models.

Module User.
Record t : Type := mk {
  id : Z;
  username : string;
  email : option string;
  hashed_password : string;
  is_active : bool;
  date_joined : datetime
}.
End User.

Module InventoryItem.
Record t : Type := mk {
  id : Z;
  name : string;
  description : option string;
  quantity : Z;
  price : float;
  date_created : datetime;
  date_updated : option datetime;
  owner_id : Z
}.
End InventoryItem.

End models.
Import models.

(** ** schemas.py *)

Module schemas.

Record UserCreate : Type := {
  username : string;
  email : option string;
  password : string
}.

(** [InventoryItemUpdate]: a field is [None] when the request left it
    unset, [Some None] when it was sent as [null]. *)
Record InventoryItemUpdate : Type := {
  name : option (option string);
  description : option (option string);
  quantity : option (option Z);
  price : option (option float)
}.

Definition is_upper (c : ascii) : bool :=
  let n := N_of_ascii c in (65 <=? n)%N && (n <=? 90)%N.
Definition is_lower (c : ascii) : bool :=
  let n := N_of_ascii c in (97 <=? n)%N && (n <=? 122)%N.
Definition is_digit (c : ascii) : bool :=
  let n := N_of_ascii c in (48 <=? n)%N && (n <=? 57)%N.

Fixpoint existsb_char (p : ascii -> bool) (s : string) : bool :=
  match s with
  | EmptyString => false
  | String c s' => p c || existsb_char p s'
  end.

Fixpoint forallb_char (p : ascii -> bool) (s : string) : bool :=
  match s with
  | EmptyString => true
  | String c s' => p c && forallb_char p s'
  end.

(** [username_alphanumeric]: [re.match(r'^[a-zA-Z0-9_]+$', v)], together
    with the [min_length=3, max_length=50] of the field.  ([$] also
    matches before one trailing newline.) *)
Definition word_char (c : ascii) : bool :=
  is_upper c || is_lower c || is_digit c || Ascii.eqb c "_"%char.

Fixpoint strip_final_newline (s : string) : string :=
  match s with
  | EmptyString => EmptyString
  | String c EmptyString =>
      if Ascii.eqb c "010"%char then EmptyString else s
  | String c s' => String c (strip_final_newline s')
  end.

Definition username_alphanumeric (v : string) : bool :=
  let body := strip_final_newline v in
  negb (String.eqb body EmptyString) && forallb_char word_char body.

Definition username_valid (v : string) : bool :=
  let n := Z.of_nat (String.length v) in
  (3 <=? n)%Z && (n <=? 50)%Z && username_alphanumeric v.

(** [len(v)] of a [str] kept as its UTF-8 bytes: the code points, that
    is the bytes that do not continue a character. *)
Definition continuation_byte (c : ascii) : bool :=
  let n := N_of_ascii c in (128 <=? n)%N && (n <=? 191)%N.

Fixpoint len (v : string) : Z :=
  match v with
  | EmptyString => 0
  | String c v' => ((if continuation_byte c then 0 else 1) + len v')%Z
  end.

(** The character tables of the interpreter: in a [str] pattern [\d]
    matches every decimal digit of Unicode; [other_decimal_digit v] tells
    whether [v] holds one outside ASCII. *)
Class Unicode : Type := {
  other_decimal_digit : string -> bool
}.

(** [password_strength] *)
Definition password_strength {unicode : Unicode} (v : string) : bool :=
  (8 <=? len v)%Z
  && existsb_char is_upper v
  && existsb_char is_lower v
  && (existsb_char is_digit v || other_decimal_digit v).

Definition UserCreate_valid {unicode : Unicode} (u : UserCreate) : bool :=
  username_valid (username u) && password_strength (password u).

(** [InventoryItemCreate] (the fields of [InventoryItemBase]). *)
Module InventoryItemCreate.
Record t : Type := mk {
  name : string;
  description : option string;
  quantity : Z;
  price : float
}.
End InventoryItemCreate.

End schemas.

(** ** database.py: the session *)

Inductive Query : Type :=
| SelectUserByUsername (username : string)
| SelectUserByEmail (email : string)
| SelectItemById (item_id : Z).

(** A database session: the two tables and the SELECT statements issued
    so far, oldest first. *)
Record Session : Type := {
  users : list User.t;
  items : list InventoryItem.t;
  statements : list Query
}.

Definition issue (q : Query) (db : Session) : Session :=
  {| users := users db; items := items db;
     statements := (statements db ++ [q])%list |}.

(** The integers the store can hold are signed 64-bit ones: binding a
    Python [int] outside this range to a statement makes the driver raise
    [OverflowError], which is not an [SQLAlchemyError]. *)
Definition fits_int64 (z : Z) : bool :=
  (- 2 ^ 63 <=? z) && (z <? 2 ^ 63).

(** ** Exceptions and the handler monad *)

Inductive Exc : Type :=
| HTTPException (status_code : Z) (detail : string)
                (headers : list (string * string))
| ValueError (msg : string)
| JWTError (msg : string)
| UnknownHashError
| SQLAlchemyError (msg : string)
| OverflowError.

Definition M (A : Type) : Type := Session -> (Exc + A) * Session.

Definition ret {A} (a : A) : M A := fun db => (inr a, db).
Definition raise {A} (e : Exc) : M A := fun db => (inl e, db).
Definition bind {A B} (c : M A) (k : A -> M B) : M B :=
  fun db =>
    match c db with
    | (inr a, db') => k a db'
    | (inl e, db') => (inl e, db')
    end.

(** [try: c except SQLAlchemyError as e: h e] *)
Definition except_SQLAlchemyError {A} (c : M A) (h : string -> M A) : M A :=
  fun db =>
    match c db with
    | (inl (SQLAlchemyError msg), db') => h msg db'
    | r => r
    end.

(** [try: c except JWTError: h] *)
Definition except_JWTError {A} (c : M A) (h : M A) : M A :=
  fun db =>
    match c db with
    | (inl (JWTError _), db') => h db'
    | r => r
    end.

Declare Scope handler_scope.
Delimit Scope handler_scope with handler.
Notation "x <- c ;; k" := (bind c (fun x => k))
  (at level 61, c at next level, right associativity) : handler_scope.
Notation "c ;;; k" := (bind c (fun _ => k))
  (at level 61, right associativity) : handler_scope.
Local Open Scope handler_scope.

(** Python truthiness of an optional string: [None] and [""] are falsy. *)
Definition truthy_str (s : option string) : bool :=
  match s with
  | Some s' => negb (String.eqb s' "")
  | None => false
  end.

(** ** passlib *)

(** [CryptContext(schemes=["bcrypt"])]: [hash] draws a salt, here its first
    argument; [verify] returns [None] when the stored digest is not a
    recognisable hash (passlib raises [UnknownHashError]). *)
Class CryptContext : Type := {
  pwd_hash : string -> string -> string;
  pwd_verify : string -> string -> option bool
}.

(** ** python-jose *)

Module jwt.

(** The primitives the library rests on.  [jws_sign alg key payload] is
    the MAC of the protected header naming [alg] and of the serialised
    [payload]; [claim_int s] is Python's [int(s)] on a string, [None] when
    it raises [ValueError]. *)
Class Signer : Type := {
  jws_sign : string -> string -> Dict -> string;
  claim_int : string -> option Z
}.

(** The compact serialisation [header.payload.signature], kept as its
    three decoded segments; [Opaque] is any string that does not split
    into three well-formed base64url segments. *)
Inductive Token : Type :=
| Opaque (raw : string)
| Compact (alg : string) (claims : Dict) (signature : string).

Section WithSigner.
Context {signer : Signer}.

Definition is_time_claim (k : string) : bool :=
  String.eqb k "exp" || String.eqb k "iat" || String.eqb k "nbf".

(** The claims [json.dumps] can serialise once [jwt.encode] has converted
    the time claims: no [datetime] under another key. *)
Definition serialisable (claims : Dict) : bool :=
  forallb (fun kv => match kv with
                     | (k, Datetime _) => is_time_claim k
                     | _ => true
                     end) claims.

(** [jwt.encode]: [datetime] values of [exp], [iat] and [nbf] become
    whole epoch seconds, then the claims are signed.  The claims are to be
    [serialisable]: a [datetime] left under another key has no JSON form
    and the library raises [TypeError], which this function does not
    show. *)
Definition encode (claims : Dict) (key algorithm : string) : Token :=
  let claims' :=
    map (fun kv => match kv with
                   | (k, Datetime t) =>
                       if is_time_claim k then (k, Int (timegm t)) else kv
                   | _ => kv
                   end) claims in
  Compact algorithm claims' (jws_sign algorithm key claims').

Definition claims_error (msg : string) : Exc + Dict := inl (JWTError msg).

(** [int(claims[k])] as the validators apply it to a time claim: an
    integer is itself, a string is parsed, [None] is a [ValueError]. *)
Definition claim_as_int (v : Any) : option Z :=
  match v with
  | Int z => Some z
  | Str s => claim_int s
  | Datetime _ => None
  end.

(** [_validate_claims] with the default options and neither audience,
    issuer, subject nor access token supplied; [now] is the clock
    reading of the library, compared in whole seconds without leeway. *)
Definition validate_claims (claims : Dict) (now : datetime) : Exc + Dict :=
  match option_map claim_as_int (dict_get claims "iat") with
  | Some None =>
      claims_error "Issued At claim (iat) must be an integer."
  | _ =>
  match option_map claim_as_int (dict_get claims "nbf") with
  | Some None =>
      claims_error "Not Before claim (nbf) must be an integer."
  | Some (Some nbf) =>
      if timegm now <? nbf
      then claims_error "The token is not yet valid (nbf)"
      else inr claims
  | None => inr claims
  end
  end.

Definition validate_exp (claims : Dict) (now : datetime) : Exc + Dict :=
  match option_map claim_as_int (dict_get claims "exp") with
  | Some None =>
      claims_error "Expiration Time claim (exp) must be an integer."
  | Some (Some exp) =>
      if exp <? timegm now
      then claims_error "Signature has expired."
      else inr claims
  | None => inr claims
  end.

Definition validate_rest (claims : Dict) : Exc + Dict :=
  match dict_get claims "aud" with
  | Some _ => claims_error "Invalid audience"
  | None =>
  match dict_get claims "sub" with
  | Some (Int _) | Some (Datetime _) =>
      claims_error "Subject must be a string."
  | _ =>
  match dict_get claims "jti" with
  | Some (Int _) | Some (Datetime _) =>
      claims_error "JWT ID must be a string."
  | _ =>
  match dict_get claims "at_hash" with
  | Some _ =>
      claims_error
        "No access_token provided to compare against at_hash claim."
  | None => inr claims
  end
  end
  end
  end.

(** [jwt.decode(token, key, algorithms=...)] *)
Definition decode (token : Token) (key : string)
           (algorithms : list string) (now : datetime) : Exc + Dict :=
  match token with
  | Opaque _ => inl (JWTError "Error decoding token headers.")
  | Compact alg claims signature =>
      if negb (existsb (String.eqb alg) algorithms)
      then inl (JWTError "The specified alg value is not allowed")
      else if negb (String.eqb signature (jws_sign alg key claims))
      then inl (JWTError "Signature verification failed.")
      else
        match validate_claims claims now with
        | inl e => inl e
        | inr _ =>
            match validate_exp claims now with
            | inl e => inl e
            | inr _ => validate_rest claims
            end
        end
  end.

End WithSigner.

End jwt.

(** ** crud.py *)

Module crud.

Section WithContext.
Context {pwd_context : CryptContext}.

Definition get_user_by_username (username : string) : M (option User.t) :=
  fun db =>
    (inr (find (fun u => String.eqb (User.username u) username) (users db)),
     issue (SelectUserByUsername username) db).

Definition get_user_by_email (email : string) : M (option User.t) :=
  fun db =>
    (inr (find (fun u => match User.email u with
                         | Some e => String.eqb e email
                         | None => false
                         end) (users db)),
     issue (SelectUserByEmail email) db).

(** [pwd_context.verify(secret, hash)] *)
Definition context_verify (secret hash : string) : M bool :=
  match pwd_verify secret hash with
  | Some b => ret b
  | None => raise UnknownHashError
  end.

Definition verify_password (plain_password hashed_password : string)
  : M bool :=
  context_verify plain_password hashed_password.

Definition get_password_hash (salt password : string) : string :=
  pwd_hash salt password.

(** The primary key handed out by the store: one more than the largest
    in use (while that is below the top of the 64-bit range). *)
Definition next_id (ids : list Z) : Z := fold_right Z.max 0 ids + 1.

(** [db.add(db_user); db.commit(); db.refresh(db_user)]: the insert is
    refused when it breaks a UNIQUE constraint of the table. *)
Definition insert_user (username : string) (email : option string)
           (hashed_password : string) (date_joined : datetime)
           (is_active : bool) : M User.t :=
  fun db =>
    if existsb (fun u => String.eqb (User.username u) username) (users db)
    then (inl (SQLAlchemyError "UNIQUE constraint failed: users.username"),
          db)
    else if existsb (fun u => match User.email u, email with
                              | Some e, Some e' => String.eqb e e'
                              | _, _ => false
                              end) (users db)
    then (inl (SQLAlchemyError "UNIQUE constraint failed: users.email"), db)
    else
      let row := User.mk (next_id (map User.id (users db))) username email
                         hashed_password is_active date_joined in
      (inr row,
       {| users := (users db ++ [row])%list; items := items db;
          statements := statements db |}).

Definition create_user (user : schemas.UserCreate) (salt : string)
           (now : datetime) : M User.t :=
  db_user <- get_user_by_username (schemas.username user) ;;
  match db_user with
  | Some _ => raise (ValueError "Username already registered")
  | None =>
      (if truthy_str (schemas.email user)
       then
         db_email <- get_user_by_email
                       (match schemas.email user with
                        | Some e => e
                        | None => ""
                        end) ;;
         match db_email with
         | Some _ => raise (ValueError "Email already registered")
         | None => ret tt
         end
       else ret tt) ;;;
      let hashed_password :=
        get_password_hash salt (schemas.password user) in
      insert_user (schemas.username user) (schemas.email user)
                  hashed_password now true
  end.

Definition authenticate_user (username password : string)
  : M (option User.t) :=
  user <- get_user_by_username username ;;
  user <- (match user with
           | None =>
               if contains_char "@"%char username
               then get_user_by_email username
               else ret None
           | Some _ => ret user
           end) ;;
  match user with
  | None => ret None
  | Some u =>
      ok <- context_verify password (User.hashed_password u) ;;
      if negb ok then ret None else ret (Some u)
  end.

Definition get_item (item_id : Z) : M (option InventoryItem.t) :=
  fun db =>
    if fits_int64 item_id
    then (inr (find (fun i => InventoryItem.id i =? item_id) (items db)),
          issue (SelectItemById item_id) db)
    else (inl OverflowError, db).

(** The [setattr] loop of [update_item] followed by the stamp of
    [date_updated]; [None] when a NOT NULL column would receive
    [None], which the commit refuses. *)
Definition apply_update (db_item : InventoryItem.t)
           (item_update : schemas.InventoryItemUpdate)
           (now : datetime) : option InventoryItem.t :=
  let set {A} (old : A) (new : option (option A)) : option A :=
    match new with
    | None => Some old
    | Some v => v
    end in
  match set (InventoryItem.name db_item) (schemas.name item_update),
        set (InventoryItem.quantity db_item) (schemas.quantity item_update),
        set (InventoryItem.price db_item) (schemas.price item_update) with
  | Some name, Some quantity, Some price =>
      Some (InventoryItem.mk
              (InventoryItem.id db_item)
              name
              (match schemas.description item_update with
               | None => InventoryItem.description db_item
               | Some d => d
               end)
              quantity price
              (InventoryItem.date_created db_item)
              (Some now)
              (InventoryItem.owner_id db_item))
  | _, _, _ => None
  end.

Fixpoint replace_row (row : InventoryItem.t) (rows : list InventoryItem.t)
  : list InventoryItem.t :=
  match rows with
  | [] => []
  | r :: rows' =>
      if InventoryItem.id r =? InventoryItem.id row
      then row :: rows'
      else r :: replace_row row rows'
  end.

Fixpoint remove_row (item_id : Z) (rows : list InventoryItem.t)
  : list InventoryItem.t :=
  match rows with
  | [] => []
  | r :: rows' =>
      if InventoryItem.id r =? item_id
      then rows'
      else r :: remove_row item_id rows'
  end.

(** Whether the values an update sets can be bound to the UPDATE. *)
Definition update_binds (item_update : schemas.InventoryItemUpdate) : bool :=
  match schemas.quantity item_update with
  | Some (Some q) => fits_int64 q
  | _ => true
  end.

Definition commit_update (db_item : InventoryItem.t)
           (item_update : schemas.InventoryItemUpdate)
           (now : datetime) : M InventoryItem.t :=
  fun db =>
    if negb (update_binds item_update) then (inl OverflowError, db)
    else
      match apply_update db_item item_update now with
      | Some row =>
          (inr row,
           {| users := users db; items := replace_row row (items db);
              statements := statements db |})
      | None =>
          (inl (SQLAlchemyError "NOT NULL constraint failed"), db)
      end.

Definition update_item (db_item : InventoryItem.t)
           (item_update : schemas.InventoryItemUpdate)
           (now : datetime) : M InventoryItem.t :=
  except_SQLAlchemyError
    (commit_update db_item item_update now)
    (fun e =>
       raise (HTTPException 500 ("Error updating item: " ++ e) [])).

Definition delete_item (item_id : Z) : M bool :=
  db_item <- get_item item_id ;;
  match db_item with
  | None => raise (HTTPException 404 "Item not found" [])
  | Some row =>
      fun db =>
        (inr true,
         {| users := users db;
            items := remove_row (InventoryItem.id row) (items db);
            statements := statements db |})
  end.

(** [query.offset(skip)] and [query.limit(limit)] as the store evaluates
    them: a negative offset skips nothing, a negative limit is no limit. *)
Definition sql_offset {A} (skip : Z) (rows : list A) : list A :=
  skipn (Z.to_nat skip) rows.

Definition sql_limit {A} (limit : Z) (rows : list A) : list A :=
  if limit <? 0 then rows else firstn (Z.to_nat limit) rows.

(** [get_items]; of its optional filters only [owner_id] is applied by
    the source.  The listing is not entered in [statements]. *)
Definition get_items (skip limit : Z) (owner_id : option Z)
  : M (list InventoryItem.t) :=
  fun db =>
    let query :=
      match owner_id with
      | Some o => filter (fun i => InventoryItem.owner_id i =? o) (items db)
      | None => items db
      end in
    if fits_int64 skip && fits_int64 limit
    then (inr (sql_limit limit (sql_offset skip query)), db)
    else (inl OverflowError, db).

(** [db.add(db_item); db.commit(); db.refresh(db_item)] for a new item:
    the table has no constraint a complete row can break, but the
    quantity has to fit the integers of the store. *)
Definition insert_item (name : string) (description : option string)
           (quantity : Z) (price : float) (owner_id : Z)
           (date_created : datetime) : M InventoryItem.t :=
  fun db =>
    let row :=
      InventoryItem.mk (next_id (map InventoryItem.id (items db)))
                       name description quantity price date_created None
                       owner_id in
    if fits_int64 quantity
    then (inr row,
          {| users := users db; items := (items db ++ [row])%list;
             statements := statements db |})
    else (inl OverflowError, db).

Definition create_user_item (item : schemas.InventoryItemCreate.t)
           (owner_id : Z) (now : datetime) : M InventoryItem.t :=
  except_SQLAlchemyError
    (insert_item (schemas.InventoryItemCreate.name item)
                 (schemas.InventoryItemCreate.description item)
                 (schemas.InventoryItemCreate.quantity item)
                 (schemas.InventoryItemCreate.price item)
                 owner_id now)
    (fun e =>
       raise (HTTPException 500 ("Error creating item: " ++ e) [])).

End WithContext.

End crud.

(** ** auth.py *)

Module auth.

(** The process environment ([os.environ]). *)
Definition Environ := list (string * string).

Definition SECRET_KEY : string :=
  "your-secret-key-please-change-in-production".
Definition ALGORITHM : string := "HS256".
Definition ACCESS_TOKEN_EXPIRE_MINUTES : Z := 30.

Record Settings : Type := {
  secret_key : string;
  algorithm : string;
  access_token_expire_minutes : Z
}.

(** Importing [auth.py] in a process whose environment is [environ]:
    the module-level assignments run, none of them reads the
    environment and none of them can raise. *)
Definition import_module (environ : Environ) : Exc + Settings :=
  inr {| secret_key := SECRET_KEY;
         algorithm := ALGORITHM;
         access_token_expire_minutes := ACCESS_TOKEN_EXPIRE_MINUTES |}.

Section WithContext.
Context {pwd_context : CryptContext} {signer : jwt.Signer}.

(** [create_access_token]; [now_exp] and [now_iat] are its two
    readings of [datetime.utcnow()].  A zero [timedelta] is falsy. *)
Definition create_access_token (data : Dict)
           (expires_delta : option timedelta)
           (now_exp now_iat : datetime) : jwt.Token :=
  let to_encode := data in
  let expire :=
    match expires_delta with
    | Some d => if d =? 0 then now_exp + minutes 15 else now_exp + d
    | None => now_exp + minutes 15
    end in
  let to_encode :=
    dict_update to_encode
                [("exp", Datetime expire); ("iat", Datetime now_iat)] in
  jwt.encode to_encode SECRET_KEY ALGORITHM.

Definition credentials_exception : Exc :=
  HTTPException 401 "Could not validate credentials"
                [("WWW-Authenticate", "Bearer")].

Definition lift {A} (r : Exc + A) : M A := fun db => (r, db).

(** [get_current_user]; [now] is the clock read by [jwt.decode]. *)
Definition get_current_user (token : jwt.Token) (now : datetime)
  : M User.t :=
  token_data <-
    except_JWTError
      (payload <- lift (jwt.decode token SECRET_KEY [ALGORITHM] now) ;;
       match dict_get payload "sub" with
       | None => raise credentials_exception
       | Some (Str username) => ret username
       | Some _ => raise (ValueError "TokenData.username: str expected")
       end)
      (raise credentials_exception) ;;
  user <- crud.get_user_by_username token_data ;;
  match user with
  | None => raise credentials_exception
  | Some u =>
      if negb (User.is_active u)
      then raise (HTTPException 400 "Inactive user" [])
      else ret u
  end.

Definition get_current_active_user (token : jwt.Token) (now : datetime)
  : M User.t :=
  get_current_user token now.

Definition authenticate_user (username password : string)
  : M (option User.t) :=
  user <- crud.authenticate_user username password ;;
  match user with
  | None => ret None
  | Some u => ret (Some u)
  end.

End WithContext.

End auth.

(** ** main.py *)

Module main.

(** What a handler returns, before serialisation. *)
Inductive Content : Type :=
| Detail (detail : string)
| TokenOut (access_token : jwt.Token) (token_type : string)
| UserOut (user : User.t)
| ItemOut (item : InventoryItem.t)
| OkOut (ok : bool).

Record Response : Type := {
  status_code : Z;
  content : Content;
  headers : list (string * string)
}.

(** [JSONResponse(status_code=..., content=...)] *)
Definition JSONResponse (status_code : Z) (content : Content) : Response :=
  {| status_code := status_code; content := content; headers := [] |}.

(** [http_exception_handler(request, exc)]: of the three attributes of
    the exception, [exc.headers] is the one the handler does not read. *)
Definition http_exception_handler (exc_status_code : Z) (exc_detail : string)
           (exc_headers : list (string * string)) : Response :=
  JSONResponse exc_status_code (Detail exc_detail).

Definition global_exception_handler : Response :=
  JSONResponse 500 (Detail "Internal server error").

(** What [JSONResponse] can render: [json.dumps] is called with
    [allow_nan=False] and raises [ValueError] on a float that is infinite
    or not a number. *)
Definition json_compliant (content : Content) : bool :=
  match content with
  | ItemOut item => PrimFloat.is_finite (InventoryItem.price item)
  | _ => true
  end.

(** The dispatch of the framework: the value of the handler is rendered
    and sent with the status code of the route, an [HTTPException] goes
    to [http_exception_handler], any other exception, that of the
    rendering included, to [global_exception_handler]. *)
Definition respond {A} (route_status : Z) (render : A -> Content)
           (handler : M A) (db : Session) : Response * Session :=
  match handler db with
  | (inr a, db') =>
      if json_compliant (render a)
      then (JSONResponse route_status (render a), db')
      else (global_exception_handler, db')
  | (inl (HTTPException status_code detail headers), db') =>
      (http_exception_handler status_code detail headers, db')
  | (inl _, db') => (global_exception_handler, db')
  end.

(** The [add_process_time_header] middleware; [process_time] is the
    elapsed time already formatted with two decimals. *)
Definition add_process_time_header (process_time : string)
           (r : Response * Session) : Response * Session :=
  ({| status_code := status_code (fst r);
      content := content (fst r);
      headers := app (headers (fst r))
                     [("X-Process-Time", String.append process_time "ms")] |},
   snd r).

Section WithContext.
Context {pwd_context : CryptContext} {signer : jwt.Signer}.

Definition login_for_access_token (form_username form_password : string)
           (now_exp now_iat : datetime) : M (jwt.Token * string) :=
  user <- auth.authenticate_user form_username form_password ;;
  match user with
  | None =>
      raise (HTTPException 401 "Incorrect username or password"
                           [("WWW-Authenticate", "Bearer")])
  | Some u =>
      let access_token_expires :=
        minutes auth.ACCESS_TOKEN_EXPIRE_MINUTES in
      let access_token :=
        auth.create_access_token [("sub", Str (User.username u))]
                                 (Some access_token_expires)
                                 now_exp now_iat in
      ret (access_token, "bearer")
  end.

Definition register_user (user : schemas.UserCreate) (salt : string)
           (now : datetime) : M User.t :=
  crud.create_user user salt now.

Definition read_users_me (token : jwt.Token) (now : datetime)
  : M User.t :=
  current_user <- auth.get_current_active_user token now ;;
  ret current_user.

Definition read_item (token : jwt.Token) (now : datetime) (item_id : Z)
  : M InventoryItem.t :=
  current_user <- auth.get_current_active_user token now ;;
  db_item <- crud.get_item item_id ;;
  match db_item with
  | None => raise (HTTPException 404 "Item not found" [])
  | Some it =>
      if negb (InventoryItem.owner_id it =? User.id current_user)
      then raise (HTTPException 403 "Not enough permissions" [])
      else ret it
  end.

Definition update_item (token : jwt.Token) (now : datetime) (item_id : Z)
           (item : schemas.InventoryItemUpdate) (now_upd : datetime)
  : M InventoryItem.t :=
  current_user <- auth.get_current_active_user token now ;;
  db_item <- crud.get_item item_id ;;
  match db_item with
  | None => raise (HTTPException 404 "Item not found" [])
  | Some it =>
      if negb (InventoryItem.owner_id it =? User.id current_user)
      then raise (HTTPException 403 "Not enough permissions" [])
      else crud.update_item it item now_upd
  end.

Definition delete_item (token : jwt.Token) (now : datetime) (item_id : Z)
  : M bool :=
  current_user <- auth.get_current_active_user token now ;;
  db_item <- crud.get_item item_id ;;
  match db_item with
  | None => raise (HTTPException 404 "Item not found" [])
  | Some it =>
      if negb (InventoryItem.owner_id it =? User.id current_user)
      then raise (HTTPException 403 "Not enough permissions" [])
      else crud.delete_item item_id ;;; ret true
  end.

(** The routes, as served. *)
Definition serve_login_for_access_token (form_username form_password : string)
           (now_exp now_iat : datetime) : Session -> Response * Session :=
  respond 200 (fun r => TokenOut (fst r) (snd r))
          (login_for_access_token form_username form_password
                                  now_exp now_iat).

Definition serve_register_user (user : schemas.UserCreate) (salt : string)
           (now : datetime) : Session -> Response * Session :=
  respond 201 UserOut (register_user user salt now).

Definition serve_read_users_me (token : jwt.Token) (now : datetime)
  : Session -> Response * Session :=
  respond 200 UserOut (read_users_me token now).

Definition serve_read_item (token : jwt.Token) (now : datetime) (item_id : Z)
  : Session -> Response * Session :=
  respond 200 ItemOut (read_item token now item_id).

Definition serve_update_item (token : jwt.Token) (now : datetime) (item_id : Z)
           (item : schemas.InventoryItemUpdate) (now_upd : datetime)
  : Session -> Response * Session :=
  respond 200 ItemOut (update_item token now item_id item now_upd).

Definition serve_delete_item (token : jwt.Token) (now : datetime)
           (item_id : Z) : Session -> Response * Session :=
  respond 204 OkOut (delete_item token now item_id).

(** The three methods routed to [/api/items/{item_id}]. *)
Inductive Method : Type :=
| GET
| PUT (item : schemas.InventoryItemUpdate) (now_upd : datetime)
| DELETE.

Definition api_items_item_id (method : Method) (token : jwt.Token)
           (now : datetime) (item_id : Z)
  : Session -> Response * Session :=
  match method with
  | GET => serve_read_item token now item_id
  | PUT item now_upd => serve_update_item token now item_id item now_upd
  | DELETE => serve_delete_item token now item_id
  end.

Definition create_item (item : schemas.InventoryItemCreate.t)
           (token : jwt.Token) (now now_created : datetime)
  : M InventoryItem.t :=
  current_user <- auth.get_current_active_user token now ;;
  crud.create_user_item item (User.id current_user) now_created.

Definition read_items (skip limit : Z) (token : jwt.Token) (now : datetime)
  : M (list InventoryItem.t) :=
  current_user <- auth.get_current_active_user token now ;;
  items <- crud.get_items skip limit (Some (User.id current_user)) ;;
  ret items.

Definition serve_create_item (item : schemas.InventoryItemCreate.t)
           (token : jwt.Token) (now now_created : datetime)
  : Session -> Response * Session :=
  respond 201 ItemOut (create_item item token now now_created).

End WithContext.

End main.

(** ** database.py: start-up *)

Module database.

(** [os.getenv(key, default)] *)
Fixpoint getenv (environ : auth.Environ) (key default : string) : string :=
  match environ with
  | [] => default
  | (k, v) :: environ' =>
      if String.eqb k key then v else getenv environ' key default
  end.

(** [init_db], run when [main.py] is imported: [drop_all] empties both
    tables, [create_all] leaves existing rows alone. *)
Definition init_db (environ : auth.Environ) (db : Session) : Session :=
  if String.eqb (getenv environ "ENVIRONMENT" "development") "development"
  then {| users := []; items := []; statements := statements db |}
  else db.

End database.

(** ** erp_frontend/app.py: the session kept by the client *)

Module frontend.

(** [st.session_state] *)
Record SessionState : Type := {
  token : option jwt.Token;
  user : option Dict;
  last_activity : option datetime;
  inventory : list Dict;
  filtered_inventory : list Dict
}.

(** What a run of the script does to the outside. *)
Inductive Effect : Type :=
| st_error (msg : string)
| Sent (method endpoint : string) (bearer : jwt.Token).

Record HttpResponse : Type := {
  status_code : Z;
  json : list Dict
}.

(** [requests.request] with the bearer header; [inl e] is a
    [RequestException] whose text is [e]. *)
Class Transport : Type := {
  requests_request : string -> string -> jwt.Token -> string + HttpResponse
}.

(** A script run either goes on with a value or is cut short by
    [st.rerun()]. *)
Inductive Flow (A : Type) : Type :=
| Done (a : A)
| RerunException.
Arguments Done {A} a.
Arguments RerunException {A}.

Definition UI (A : Type) : Type :=
  SessionState -> Flow A * SessionState * list Effect.

Definition ui_ret {A} (a : A) : UI A := fun st => (Done a, st, []).

Definition ui_bind {A B} (c : UI A) (k : A -> UI B) : UI B :=
  fun st =>
    match c st with
    | (Done a, st', out) =>
        match k a st' with
        | (r, st'', out') => (r, st'', (out ++ out')%list)
        end
    | (RerunException, st', out) => (RerunException, st', out)
    end.

Definition emit (e : Effect) : UI unit := fun st => (Done tt, st, [e]).
Definition rerun {A} : UI A := fun st => (RerunException, st, []).
Definition get_state : UI SessionState := fun st => (Done st, st, []).
Definition put_state (st' : SessionState) : UI unit :=
  fun _ => (Done tt, st', []).

Declare Scope ui_scope.
Delimit Scope ui_scope with ui.
Notation "x <- c ;; k" := (ui_bind c (fun x => k))
  (at level 61, c at next level, right associativity) : ui_scope.
Notation "c ;;; k" := (ui_bind c (fun _ => k))
  (at level 61, right associativity) : ui_scope.

(** Truthiness of the stored token and of the stored profile. *)
Definition truthy_token (t : option jwt.Token) : bool :=
  match t with
  | None => false
  | Some (jwt.Opaque raw) => negb (String.eqb raw "")
  | Some (jwt.Compact _ _ _) => true
  end.

Definition truthy_dict (d : option Dict) : bool :=
  match d with
  | None | Some [] => false
  | Some (_ :: _) => true
  end.

Definition truthy_list {A} (l : list A) : bool :=
  match l with
  | [] => false
  | _ :: _ => true
  end.

Section WithTransport.
Context {transport : Transport}.
Local Open Scope ui_scope.

(** [check_session_timeout]; [now1] is the clock read for the
    inactivity test, [now2] the one stored as the new last activity. *)
Definition check_session_timeout (now1 now2 : datetime) : UI bool :=
  st <- get_state ;;
  let refresh : UI bool :=
    st <- get_state ;;
    put_state {| token := token st; user := user st;
                 last_activity := Some now2;
                 inventory := inventory st;
                 filtered_inventory := filtered_inventory st |} ;;;
    ui_ret true in
  match last_activity st with
  | Some last =>
      let inactive_duration := now1 - last in
      if minutes 30 <? inactive_duration
      then
        put_state {| token := None; user := None;
                     last_activity := None;
                     inventory := inventory st;
                     filtered_inventory := filtered_inventory st |} ;;;
        emit (st_error
                "Your session has timed out. Please log in again.") ;;;
        ui_ret false
      else refresh
  | None => refresh
  end.

Definition make_authenticated_request (method endpoint : string)
  : UI (option HttpResponse) :=
  st <- get_state ;;
  match token st with
  | Some tok =>
      if negb (truthy_token (token st)) then ui_ret None
      else
        emit (Sent method endpoint tok) ;;;
        match requests_request method endpoint tok with
        | inr response =>
            if status_code response =? 401
            then
              put_state {| token := None; user := None;
                           last_activity := last_activity st;
                           inventory := inventory st;
                           filtered_inventory := filtered_inventory st |} ;;;
              emit (st_error
                      "Your session has expired. Please log in again.") ;;;
              rerun
            else ui_ret (Some response)
        | inl e =>
            emit (st_error (String.append "API request failed: " e)) ;;;
            ui_ret None
        end
  | None => ui_ret None
  end.

(** [load_inventory]; a [requests.Response] is truthy when its status is
    below 400. *)
Definition load_inventory : UI unit :=
  response <- make_authenticated_request "GET" "/items/" ;;
  match response with
  | Some r =>
      if (status_code r <? 400) && (status_code r =? 200)
      then
        st <- get_state ;;
        put_state {| token := token st; user := user st;
                     last_activity := last_activity st;
                     inventory := json r;
                     filtered_inventory := json r |}
      else ui_ret tt
  | None => ui_ret tt
  end.

(** [main]; the login form and the pages behind the sidebar are the
    parameters [show_login_form] and [show_pages]. *)
Definition main (show_login_form show_pages : UI unit)
           (now1 now2 : datetime) : UI unit :=
  st <- get_state ;;
  if negb (truthy_token (token st)) || negb (truthy_dict (user st))
  then show_login_form
  else
    alive <- check_session_timeout now1 now2 ;;
    if negb alive then ui_ret tt
    else
      st <- get_state ;;
      (if negb (truthy_list (inventory st))
       then load_inventory
       else ui_ret tt) ;;;
      show_pages.

End WithTransport.

End frontend.

(** ** Sample data used by the closed examples *)

Module sample.

(** A stand-in for the password context: the digest of [secret] under
    [salt] is [$salt$secret]; a string without this shape is not a
    digest. *)
Fixpoint after_dollar (s : string) : option string :=
  match s with
  | EmptyString => None
  | String c s' => if Ascii.eqb c "$"%char then Some s' else after_dollar s'
  end.

Definition context : CryptContext :=
  {| pwd_hash := fun salt secret =>
       String.append "$" (String.append salt (String.append "$" secret));
     pwd_verify := fun secret digest =>
       match digest with
       | String c rest =>
           if Ascii.eqb c "$"%char
           then match after_dollar rest with
                | Some body => Some (String.eqb body secret)
                | None => None
                end
           else None
       | EmptyString => None
       end |}.

(** A stand-in for the MAC: algorithm, key and serialised claims
    side by side. *)
Definition show_any (v : Any) : string :=
  match v with
  | Str s => s
  | Int z => NilZero.string_of_int (Z.to_int z)
  | Datetime t => NilZero.string_of_int (Z.to_int t)
  end.

Definition show_claims (claims : Dict) : string :=
  fold_right (fun kv acc =>
                String.append (fst kv)
                  (String.append "=" (String.append (show_any (snd kv))
                                        (String.append ";" acc))))
             "" claims.

Definition signer : jwt.Signer :=
  {| jwt.jws_sign := fun alg key claims =>
       String.append alg
         (String.append ":" (String.append key
            (String.append ":" (show_claims claims))));
     jwt.claim_int := fun s =>
       option_map Z.of_int (NilZero.int_of_string s) |}.

(** The character tables restricted to ASCII, enough for the sample
    passwords. *)
Definition unicode : schemas.Unicode :=
  {| schemas.other_decimal_digit := fun _ => false |}.

Definition alice : User.t :=
  User.mk 1 "alice" (Some "alice@example.com") "$s1$Passw0rd1" true 0.

Definition bob : User.t :=
  User.mk 2 "bob" None "$s2$Hunter2hunter" true 0.

Definition carol : User.t :=
  User.mk 3 "carol" (Some "carol@example.com") "$s3$Secret123" false 0.

Definition laptop : InventoryItem.t :=
  InventoryItem.mk 1 "Laptop" None 10 999.5%float 0 None 1.

Definition desk : InventoryItem.t :=
  InventoryItem.mk 2 "Desk" (Some "oak") 3 120%float 0 None 2.

Definition db : Session :=
  {| users := [alice; bob; carol]; items := [laptop; desk];
     statements := [] |}.

(** The token [alice] obtains by logging in at time [0]. *)
Definition alice_token : jwt.Token :=
  auth.create_access_token (signer := signer) [("sub", Str "alice")]
                            (Some (minutes 30)) 0 0.

Definition dave : schemas.UserCreate :=
  {| schemas.username := "dave";
     schemas.email := Some "dave@example.com";
     schemas.password := "Str0ngPass" |}.

Definition chair : schemas.InventoryItemCreate.t :=
  schemas.InventoryItemCreate.mk "Chair" (Some "swivel") 4 80%float.

Definition chair_row : InventoryItem.t :=
  InventoryItem.mk 3 "Chair" (Some "swivel") 4 80%float 5 None 1.

(** The token [bob] obtains by logging in at time [0]. *)
Definition bob_token : jwt.Token :=
  auth.create_access_token (signer := signer) [("sub", Str "bob")]
                            (Some (minutes 30)) 0 0.

Definition restock : schemas.InventoryItemUpdate :=
  {| schemas.name := None; schemas.description := None;
     schemas.quantity := Some (Some 7); schemas.price := None |}.

Definition unname : schemas.InventoryItemUpdate :=
  {| schemas.name := Some None; schemas.description := None;
     schemas.quantity := None; schemas.price := None |}.

Definition dave_row : User.t :=
  User.mk 4 "dave" (Some "dave@example.com") "$s4$Str0ngPass" true 9.

End sample.

(** * Vocabulary of the statements *)

Definition by_username (username : string) (u : User.t) : bool :=
  String.eqb (User.username u) username.

Definition by_email (email : string) (u : User.t) : bool :=
  match User.email u with
  | Some e => String.eqb e email
  | None => false
  end.

Definition invalid_credentials : main.Response :=
  main.JSONResponse 401 (main.Detail "Incorrect username or password").




(** The claims of the token minted at login for [username]. *)
Definition login_claims (username : string) (t0 t_iat : datetime) : Dict :=
  [("sub", Str username);
   ("exp", Int (timegm (t0 + minutes 30)));
   ("iat", Int (timegm t_iat))].

Definition cleared (st : frontend.SessionState) : frontend.SessionState :=
  {| frontend.token := None; frontend.user := None;
     frontend.last_activity := None;
     frontend.inventory := frontend.inventory st;
     frontend.filtered_inventory := frontend.filtered_inventory st |}.

Definition refreshed (now : datetime) (st : frontend.SessionState)
  : frontend.SessionState :=
  {| frontend.token := frontend.token st; frontend.user := frontend.user st;
     frontend.last_activity := Some now;
     frontend.inventory := frontend.inventory st;
     frontend.filtered_inventory := frontend.filtered_inventory st |}.

Definition timeout_message : frontend.Effect :=
  frontend.st_error "Your session has timed out. Please log in again.".

(** The session kept or dropped strictly at the limit: an interaction
    refreshes the last activity exactly when less than 30 minutes have
    passed since it. *)
Definition refreshes_iff_under_limit (st : frontend.SessionState)
           (now1 now2 : datetime) : Prop :=
  forall last,
    frontend.last_activity st = Some last ->
    (frontend.check_session_timeout now1 now2 st
     = (frontend.Done true, refreshed now2 st, [])
     <-> now1 - last < minutes 30).

Definition active_session : frontend.SessionState :=
  {| frontend.token := Some sample.alice_token;
     frontend.user := Some [("username", Str "alice")];
     frontend.last_activity := Some 0;
     frontend.inventory := [];
     frontend.filtered_inventory := [] |}.

(** The non-null emails of a table of users, in row order. *)
Definition emails (rows : list User.t) : list string :=
  flat_map (fun u => match User.email u with
                     | Some e => [e]
                     | None => []
                     end) rows.

(** The UNIQUE and PRIMARY KEY constraints of the [users] table. *)
Definition users_unique (db : Session) : Prop :=
  NoDup (map User.id (users db))
  /\ NoDup (map User.username (users db))
  /\ NoDup (emails (users db)).

(** The PRIMARY KEY constraint of the [inventory_items] table. *)
Definition items_unique (db : Session) : Prop :=
  NoDup (map InventoryItem.id (items db)).

(** The row [crud.create_user] stores for a request. *)
Definition registered_row {pwd_context : CryptContext}
           (user : schemas.UserCreate) (salt : string) (now : datetime)
           (db : Session) : User.t :=
  User.mk (crud.next_id (map User.id (users db)))
          (schemas.username user) (schemas.email user)
          (pwd_hash salt (schemas.password user)) true now.

(** The rows of the table owned by [owner]. *)
Definition owned_by (owner : Z) (rows : list InventoryItem.t)
  : list InventoryItem.t :=
  filter (fun i => InventoryItem.owner_id i =? owner) rows.

Definition by_item_id (item_id : Z) (i : InventoryItem.t) : bool :=
  InventoryItem.id i =? item_id.

(** The lifetime [create_access_token] gives a token. *)
Definition effective_delta (expires_delta : option timedelta) : timedelta :=
  match expires_delta with
  | Some d => if d =? 0 then minutes 15 else d
  | None => minutes 15
  end.

(** * Properties *)

(** ** Frame and lookup lemmas *)

Lemma find_none_iff {A} (p : A -> bool) (l : list A) :
  find p l = None <-> (forall x, In x l -> p x = false).
Proof.
  split.
  - intros H x Hx. exact (find_none p l H x Hx).
  - induction l as [|a l IH]; intros H; simpl; [reflexivity|].
    rewrite (H a (or_introl eq_refl)). apply IH.
    intros x Hx. apply H. right. exact Hx.
Qed.


Section Backend.
Context {pwd_context : CryptContext} {signer : jwt.Signer}.

(** Resolving a token reads the store and never writes to it. *)
Lemma get_current_user_frame (token : jwt.Token) (now : datetime)
      (db : Session) :
  users (snd (auth.get_current_user token now db)) = users db
  /\ items (snd (auth.get_current_user token now db)) = items db.
Proof.
  unfold auth.get_current_user, except_JWTError, bind, auth.lift, raise, ret,
    crud.get_user_by_username.
  destruct (jwt.decode token auth.SECRET_KEY [auth.ALGORITHM] now)
    as [e|payload]; simpl.
  - destruct e; simpl; auto.
  - destruct (dict_get payload "sub") as [[username|z|t]|]; simpl; auto.
    destruct (find _ (users db)) as [u|]; simpl; auto.
    destruct (User.is_active u); simpl; auto.
Qed.



End Backend.



(** ** Login *)

Section Login.
Context {pwd_context : CryptContext} {signer : jwt.Signer}.

(** The lookup of [crud.authenticate_user], as a function of the table. *)
Lemma authenticate_user_lookup (username password : string) (db : Session) :
  fst (crud.authenticate_user username password db) =
  match find (by_username username) (users db) with
  | Some u =>
      match pwd_verify password (User.hashed_password u) with
      | Some true => inr (Some u)
      | Some false => inr None
      | None => inl UnknownHashError
      end
  | None =>
      if contains_char "@"%char username
      then match find (by_email username) (users db) with
           | Some u =>
               match pwd_verify password (User.hashed_password u) with
               | Some true => inr (Some u)
               | Some false => inr None
               | None => inl UnknownHashError
               end
           | None => inr None
           end
      else inr None
  end.
Proof.
  unfold crud.authenticate_user, crud.get_user_by_username,
    crud.get_user_by_email, crud.context_verify, bind, ret, raise.
  fold (by_username username). fold (by_email username). simpl.
  destruct (find (by_username username) (users db)) as [u|]; simpl.
  - destruct (pwd_verify password (User.hashed_password u)) as [[|]|];
      reflexivity.
  - destruct (contains_char "@"%char username); simpl; [|reflexivity].
    destruct (find (by_email username) (users db)) as [u|]; simpl;
      [|reflexivity].
    destruct (pwd_verify password (User.hashed_password u)) as [[|]|];
      reflexivity.
Qed.

(** A login is refused with the one generic response whenever
    [crud.authenticate_user] returns no principal. *)
Lemma post_token_refused (username password : string) (t t' : datetime)
      (db : Session) :
  fst (crud.authenticate_user username password db) = inr None ->
  fst (main.serve_login_for_access_token username password t t' db) = invalid_credentials.
Proof.
  intros H.
  unfold main.serve_login_for_access_token, main.respond, main.login_for_access_token,
    auth.authenticate_user, bind.
  destruct (crud.authenticate_user username password db) as [r db'].
  simpl in H. subst r. reflexivity.
Qed.

(** C2. A login with an identifier that belongs to no principal and a
    login with the username of a principal but a password that does not
    verify receive the same response: 401 with the detail
    "Incorrect username or password". *)
Theorem login_failures_indistinguishable
        (db1 db2 : Session) (u1 p1 u2 p2 : string) (usr : User.t)
        (t1 t1' t2 t2' : datetime)
        (Hunknown : forall u, In u (users db1) ->
                              User.username u <> u1 /\ User.email u <> Some u1)
        (Hknown : find (by_username u2) (users db2) = Some usr)
        (Hwrong : pwd_verify p2 (User.hashed_password usr) = Some false) :
  fst (main.serve_login_for_access_token u1 p1 t1 t1' db1) = fst (main.serve_login_for_access_token u2 p2 t2 t2' db2)
  /\ fst (main.serve_login_for_access_token u1 p1 t1 t1' db1) = invalid_credentials.
Proof.
  assert (H1 : fst (main.serve_login_for_access_token u1 p1 t1 t1' db1) = invalid_credentials).
  { apply post_token_refused. rewrite authenticate_user_lookup.
    assert (Hn : find (by_username u1) (users db1) = None).
    { apply find_none_iff. intros x Hx. unfold by_username.
      apply String.eqb_neq. exact (proj1 (Hunknown x Hx)). }
    assert (He : find (by_email u1) (users db1) = None).
    { apply find_none_iff. intros x Hx. unfold by_email.
      pose proof (proj2 (Hunknown x Hx)) as Hne.
      destruct (User.email x) as [e|]; [|reflexivity].
      apply String.eqb_neq. congruence. }
    rewrite Hn, He. destruct (contains_char "@"%char u1); reflexivity. }
  assert (H2 : fst (main.serve_login_for_access_token u2 p2 t2 t2' db2) = invalid_credentials).
  { apply post_token_refused. rewrite authenticate_user_lookup.
    rewrite Hknown, Hwrong. reflexivity. }
  split; [congruence | exact H1].
Qed.

End Login.

Lemma login_failures_indistinguishable_witness :
  fst (main.serve_login_for_access_token (pwd_context := sample.context)
         (signer := sample.signer) "mallory" "Passw0rd1" 0 0 sample.db)
  = fst (main.serve_login_for_access_token (pwd_context := sample.context)
           (signer := sample.signer) "alice" "passw0rd1" 5 6 sample.db)
  /\ fst (main.serve_login_for_access_token (pwd_context := sample.context)
            (signer := sample.signer) "mallory" "Passw0rd1" 0 0 sample.db)
     = invalid_credentials.
Proof.
  apply (login_failures_indistinguishable (pwd_context := sample.context)
           (signer := sample.signer) sample.db sample.db
           "mallory" "Passw0rd1" "alice" "passw0rd1" sample.alice).
  - intros u [<-|[<-|[<-|[]]]]; split; discriminate.
  - reflexivity.
  - reflexivity.
Defined.

(** ** Token lifetime *)

Section TokenLifetime.
Context {pwd_context : CryptContext} {signer : jwt.Signer}.

Lemma create_access_token_login (username : string) (t0 t_iat : datetime) :
  auth.create_access_token [("sub", Str username)]
                           (Some (minutes auth.ACCESS_TOKEN_EXPIRE_MINUTES))
                           t0 t_iat
  = jwt.Compact "HS256" (login_claims username t0 t_iat)
                (jwt.jws_sign "HS256" auth.SECRET_KEY
                              (login_claims username t0 t_iat)).
Proof. reflexivity. Qed.

Lemma timegm_add_minutes (t m : Z) : timegm (t + minutes m) = timegm t + m * 60.
Proof.
  unfold timegm, minutes.
  replace (t + m * 60 * 1000000) with (t + (m * 60) * 1000000) by ring.
  apply Z.div_add. discriminate.
Qed.

(** [jwt.decode] on a login token: accepted up to the second of expiry,
    refused as expired afterwards. *)
Lemma decode_login_token (username : string) (t0 t_iat now : datetime) :
  jwt.decode (jwt.Compact "HS256" (login_claims username t0 t_iat)
                (jwt.jws_sign "HS256" auth.SECRET_KEY
                              (login_claims username t0 t_iat)))
             auth.SECRET_KEY [auth.ALGORITHM] now
  = if timegm (t0 + minutes 30) <? timegm now
    then inl (JWTError "Signature has expired.")
    else inr (login_claims username t0 t_iat).
Proof.
  unfold jwt.decode. simpl existsb. cbv iota. simpl negb at 1. cbv iota.
  rewrite String.eqb_refl. simpl negb. cbv iota.
  unfold jwt.validate_claims, jwt.validate_exp, jwt.validate_rest,
    jwt.claims_error, login_claims.
  simpl dict_get. cbn [option_map jwt.claim_as_int]. cbv beta iota.
  match goal with
  | |- context [?a <? ?b] => destruct (a <? b); reflexivity
  end.
Qed.

Lemma get_current_user_login_token (username : string)
      (t0 t_iat now : datetime) (db : Session) :
  fst (auth.get_current_user
         (auth.create_access_token
            [("sub", Str username)]
            (Some (minutes auth.ACCESS_TOKEN_EXPIRE_MINUTES)) t0 t_iat)
         now db)
  = if timegm (t0 + minutes 30) <? timegm now
    then inl auth.credentials_exception
    else match find (by_username username) (users db) with
         | None => inl auth.credentials_exception
         | Some u =>
             if User.is_active u then inr u
             else inl (HTTPException 400 "Inactive user" [])
         end.
Proof.
  rewrite create_access_token_login.
  unfold auth.get_current_user, except_JWTError, bind, auth.lift.
  rewrite decode_login_token.
  destruct (timegm (t0 + minutes 30) <? timegm now); [reflexivity|].
  unfold login_claims, crud.get_user_by_username. simpl.
  fold (by_username username).
  destruct (find (by_username username) (users db)) as [u|]; [|reflexivity].
  simpl. destruct (User.is_active u); reflexivity.
Qed.

(** C3. The token minted by a successful login at [t0] (lifetime 30
    minutes) resolves 29 minutes later to the principal its subject names,
    provided that principal is still stored and active; 31 minutes after
    [t0] it is refused as expired, and the protected call answers 401. *)
Theorem login_token_29_31_minutes
        (db db2 : Session) (u p : string) (usr principal : User.t)
        (t0 t_iat : datetime)
        (Hauth : fst (auth.authenticate_user u p db) = inr (Some usr))
        (Hstored : find (by_username (User.username usr)) (users db2)
                   = Some principal)
        (Hactive : User.is_active principal = true) :
  let tok :=
    auth.create_access_token [("sub", Str (User.username usr))]
                             (Some (minutes 30)) t0 t_iat in
  fst (main.login_for_access_token u p t0 t_iat db) = inr (tok, "bearer")
  /\ fst (auth.get_current_user tok (t0 + minutes 29) db2) = inr principal
  /\ fst (main.serve_read_users_me tok (t0 + minutes 29) db2)
     = main.JSONResponse 200 (main.UserOut principal)
  /\ jwt.decode tok auth.SECRET_KEY [auth.ALGORITHM] (t0 + minutes 31)
     = inl (JWTError "Signature has expired.")
  /\ fst (auth.get_current_user tok (t0 + minutes 31) db2)
     = inl auth.credentials_exception
  /\ fst (main.serve_read_users_me tok (t0 + minutes 31) db2)
     = main.JSONResponse 401 (main.Detail "Could not validate credentials").
Proof.
  intros tok.
  assert (H29 : (timegm (t0 + minutes 30) <? timegm (t0 + minutes 29)) = false).
  { rewrite !timegm_add_minutes. apply Z.ltb_ge. lia. }
  assert (H31 : (timegm (t0 + minutes 30) <? timegm (t0 + minutes 31)) = true).
  { rewrite !timegm_add_minutes. apply Z.ltb_lt. lia. }
  assert (R29 : fst (auth.get_current_user tok (t0 + minutes 29) db2)
                = inr principal).
  { subst tok. change (minutes 30) with (minutes auth.ACCESS_TOKEN_EXPIRE_MINUTES) at 1.
    rewrite get_current_user_login_token, H29, Hstored, Hactive. reflexivity. }
  assert (R31 : fst (auth.get_current_user tok (t0 + minutes 31) db2)
                = inl auth.credentials_exception).
  { subst tok. change (minutes 30) with (minutes auth.ACCESS_TOKEN_EXPIRE_MINUTES) at 1.
    rewrite get_current_user_login_token, H31. reflexivity. }
  repeat split.
  - unfold main.login_for_access_token, bind.
    destruct (auth.authenticate_user u p db) as [r db'].
    simpl in Hauth. subst r. reflexivity.
  - exact R29.
  - unfold main.serve_read_users_me, main.respond, main.read_users_me,
      auth.get_current_active_user, bind.
    destruct (auth.get_current_user tok (t0 + minutes 29) db2) as [r db'].
    simpl in R29. subst r. reflexivity.
  - subst tok. change (minutes 30) with (minutes auth.ACCESS_TOKEN_EXPIRE_MINUTES) at 1.
    rewrite create_access_token_login, decode_login_token, H31. reflexivity.
  - exact R31.
  - unfold main.serve_read_users_me, main.respond, main.read_users_me,
      auth.get_current_active_user, bind.
    destruct (auth.get_current_user tok (t0 + minutes 31) db2) as [r db'].
    simpl in R31. subst r. reflexivity.
Qed.

End TokenLifetime.

Lemma login_token_29_31_minutes_witness :
  let t0 := 1700000000123456 in
  let tok :=
    auth.create_access_token (signer := sample.signer)
      [("sub", Str "alice")] (Some (minutes 30)) t0 (t0 + 7) in
  fst (main.serve_read_users_me (signer := sample.signer) tok (t0 + minutes 29)
         sample.db)
  = main.JSONResponse 200 (main.UserOut sample.alice)
  /\ fst (main.serve_read_users_me (signer := sample.signer) tok (t0 + minutes 31)
            sample.db)
     = main.JSONResponse 401 (main.Detail "Could not validate credentials").
Proof.
  intros t0 tok.
  pose proof (login_token_29_31_minutes
                (pwd_context := sample.context) (signer := sample.signer)
                sample.db sample.db "alice" "Passw0rd1"
                sample.alice sample.alice t0 (t0 + 7)
                eq_refl eq_refl eq_refl) as H.
  split.
  - exact (proj1 (proj2 (proj2 H))).
  - exact (proj2 (proj2 (proj2 (proj2 (proj2 H))))).
Defined.

(** ** Resolution failures *)

Section Resolution.
Context {signer : jwt.Signer}.

Lemma validate_rest_sub (claims payload : Dict) :
  jwt.validate_rest claims = inr payload ->
  payload = claims
  /\ (dict_get claims "sub" = None
      \/ exists username, dict_get claims "sub" = Some (Str username)).
Proof.
  unfold jwt.validate_rest, jwt.claims_error.
  destruct (dict_get claims "aud"); [discriminate|].
  destruct (dict_get claims "sub") as [[username|z|t]|]; try discriminate;
    destruct (dict_get claims "jti") as [[j|z|t]|]; try discriminate;
    destruct (dict_get claims "at_hash"); try discriminate;
    intros H; injection H as <-; split; eauto.
Qed.

Lemma validate_claims_raises (claims : Dict) (now : datetime) (e : Exc) :
  jwt.validate_claims claims now = inl e -> exists msg, e = JWTError msg.
Proof.
  unfold jwt.validate_claims, jwt.claims_error.
  destruct (option_map jwt.claim_as_int (dict_get claims "iat")) as [[?|]|];
    destruct (option_map jwt.claim_as_int (dict_get claims "nbf"))
      as [[nbf|]|];
    try destruct (timegm now <? nbf);
    intros H; try discriminate; injection H as <-; eauto.
Qed.

Lemma validate_exp_raises (claims : Dict) (now : datetime) (e : Exc) :
  jwt.validate_exp claims now = inl e -> exists msg, e = JWTError msg.
Proof.
  unfold jwt.validate_exp, jwt.claims_error.
  destruct (option_map jwt.claim_as_int (dict_get claims "exp")) as [[exp|]|];
    try destruct (exp <? timegm now);
    intros H; try discriminate; injection H as <-; eauto.
Qed.

Lemma validate_rest_raises (claims : Dict) (e : Exc) :
  jwt.validate_rest claims = inl e -> exists msg, e = JWTError msg.
Proof.
  unfold jwt.validate_rest, jwt.claims_error.
  destruct (dict_get claims "aud");
    [intros H; injection H as <-; eauto|].
  destruct (dict_get claims "sub") as [[?|?|?]|];
    destruct (dict_get claims "jti") as [[?|?|?]|];
    destruct (dict_get claims "at_hash");
    intros H; try discriminate; injection H as <-; eauto.
Qed.

(** Every failure of [jwt.decode] is a [JWTError]. *)
Lemma decode_raises_JWTError (token : jwt.Token) (key : string)
      (algorithms : list string) (now : datetime) (e : Exc) :
  jwt.decode token key algorithms now = inl e -> exists msg, e = JWTError msg.
Proof.
  unfold jwt.decode.
  destruct token as [raw|alg claims signature].
  - intros H. injection H as <-. eauto.
  - destruct (negb (existsb (String.eqb alg) algorithms));
      [intros H; injection H as <-; eauto|].
    destruct (negb (String.eqb signature (jwt.jws_sign alg key claims)));
      [intros H; injection H as <-; eauto|].
    destruct (jwt.validate_claims claims now) as [e1|c1] eqn:H1.
    { intros H. injection H as <-. exact (validate_claims_raises _ _ _ H1). }
    destruct (jwt.validate_exp claims now) as [e2|c2] eqn:H2.
    { intros H. injection H as <-. exact (validate_exp_raises _ _ _ H2). }
    apply validate_rest_raises.
Qed.

(** A decoded payload carries a string subject or none. *)
Lemma decode_sub (token : jwt.Token) (key : string)
      (algorithms : list string) (now : datetime) (payload : Dict) :
  jwt.decode token key algorithms now = inr payload ->
  dict_get payload "sub" = None
  \/ exists username, dict_get payload "sub" = Some (Str username).
Proof.
  unfold jwt.decode.
  destruct token as [raw|alg claims signature]; [discriminate|].
  destruct (negb (existsb (String.eqb alg) algorithms)); [discriminate|].
  destruct (negb (String.eqb signature (jwt.jws_sign alg key claims)));
    [discriminate|].
  destruct (jwt.validate_claims claims now); [discriminate|].
  destruct (jwt.validate_exp claims now); [discriminate|].
  intros H. apply validate_rest_sub in H. destruct H as [-> H]. exact H.
Qed.

(** [get_current_user] as a function of the decoded token and the table. *)
Lemma get_current_user_cases (token : jwt.Token) (now : datetime)
      (db : Session) :
  fst (auth.get_current_user token now db) =
  match jwt.decode token auth.SECRET_KEY [auth.ALGORITHM] now with
  | inl _ => inl auth.credentials_exception
  | inr payload =>
      match dict_get payload "sub" with
      | Some (Str username) =>
          match find (by_username username) (users db) with
          | Some u =>
              if User.is_active u then inr u
              else inl (HTTPException 400 "Inactive user" [])
          | None => inl auth.credentials_exception
          end
      | _ => inl auth.credentials_exception
      end
  end.
Proof.
  unfold auth.get_current_user, except_JWTError, bind, auth.lift, raise, ret,
    crud.get_user_by_username.
  destruct (jwt.decode token auth.SECRET_KEY [auth.ALGORITHM] now)
    as [e|payload] eqn:Hd.
  - destruct (decode_raises_JWTError _ _ _ _ _ Hd) as [msg ->]. reflexivity.
  - destruct (decode_sub _ _ _ _ _ Hd) as [Hs|[username Hs]]; rewrite Hs; simpl.
    + reflexivity.
    + fold (by_username username).
      destruct (find (by_username username) (users db)) as [u|]; simpl;
        [|reflexivity].
      destruct (User.is_active u); reflexivity.
Qed.

(** The four ways a presented token fails to resolve. *)
Lemma unparseable_token_refused (raw : string) (now : datetime) (db : Session) :
  fst (auth.get_current_user (jwt.Opaque raw) now db)
  = inl auth.credentials_exception.
Proof. rewrite get_current_user_cases. reflexivity. Qed.

Lemma bad_signature_refused (alg : string) (claims : Dict) (signature : string)
      (now : datetime) (db : Session) :
  signature <> jwt.jws_sign alg auth.SECRET_KEY claims ->
  fst (auth.get_current_user (jwt.Compact alg claims signature) now db)
  = inl auth.credentials_exception.
Proof.
  intros H. rewrite get_current_user_cases. unfold jwt.decode.
  destruct (negb (existsb (String.eqb alg) [auth.ALGORITHM])); [reflexivity|].
  apply String.eqb_neq in H. rewrite H. reflexivity.
Qed.

Lemma expired_token_refused (alg : string) (claims : Dict) (signature : string)
      (exp : Z) (now : datetime) (db : Session) :
  dict_get claims "exp" = Some (Int exp) ->
  exp < timegm now ->
  fst (auth.get_current_user (jwt.Compact alg claims signature) now db)
  = inl auth.credentials_exception.
Proof.
  intros He Hlt. rewrite get_current_user_cases. unfold jwt.decode.
  destruct (negb (existsb (String.eqb alg) [auth.ALGORITHM])); [reflexivity|].
  destruct (negb (String.eqb signature _)); [reflexivity|].
  destruct (jwt.validate_claims claims now); [reflexivity|].
  unfold jwt.validate_exp. rewrite He. cbn [option_map jwt.claim_as_int].
  apply Z.ltb_lt in Hlt. rewrite Hlt. reflexivity.
Qed.

Lemma unknown_subject_refused (token : jwt.Token) (now : datetime)
      (db : Session) (payload : Dict) (username : string) :
  jwt.decode token auth.SECRET_KEY [auth.ALGORITHM] now = inr payload ->
  dict_get payload "sub" = Some (Str username) ->
  find (by_username username) (users db) = None ->
  fst (auth.get_current_user token now db) = inl auth.credentials_exception.
Proof.
  intros Hd Hs Hf. rewrite get_current_user_cases, Hd, Hs, Hf. reflexivity.
Qed.

Lemma inactive_principal_refused (token : jwt.Token) (now : datetime)
      (db : Session) (payload : Dict) (username : string) (u : User.t) :
  jwt.decode token auth.SECRET_KEY [auth.ALGORITHM] now = inr payload ->
  dict_get payload "sub" = Some (Str username) ->
  find (by_username username) (users db) = Some u ->
  User.is_active u = false ->
  fst (auth.get_current_user token now db)
  = inl (HTTPException 400 "Inactive user" []).
Proof.
  intros Hd Hs Hf Ha. rewrite get_current_user_cases, Hd, Hs, Hf, Ha.
  reflexivity.
Qed.

(** C4. Whatever the token, a protected call ends in one of three ways.
    The dependency returns an active principal; or it raises the 401
    exception, which carries [WWW-Authenticate: Bearer]; or it raises the
    400 exception for an inactive principal.  The status codes reach the
    client, the header of the 401 exception does not: the response built by
    [http_exception_handler] has no header at all, and after the timing
    middleware it has [X-Process-Time] only. *)
Theorem resolution_failure_response (token : jwt.Token) (now : datetime)
        (db : Session) (process_time : string) :
  let out := main.serve_read_users_me token now db in
  match fst (auth.get_current_user token now db) with
  | inr u =>
      User.is_active u = true
      /\ fst out = main.JSONResponse 200 (main.UserOut u)
  | inl e =>
      (e = HTTPException 401 "Could not validate credentials"
                         [("WWW-Authenticate", "Bearer")]
       /\ main.status_code (fst out) = 401
       /\ main.content (fst out) = main.Detail "Could not validate credentials"
       /\ main.headers (fst out) = []
       /\ main.headers (fst (main.add_process_time_header process_time out))
          = [("X-Process-Time", String.append process_time "ms")])
      \/ (e = HTTPException 400 "Inactive user" []
          /\ fst out = main.JSONResponse 400 (main.Detail "Inactive user"))
  end.
Proof.
  intros out. subst out.
  pose proof (get_current_user_cases token now db) as Hc.
  unfold main.serve_read_users_me, main.respond, main.read_users_me,
    auth.get_current_active_user, bind.
  destruct (auth.get_current_user token now db) as [r db'].
  simpl fst in *. subst r.
  destruct (jwt.decode token auth.SECRET_KEY [auth.ALGORITHM] now)
    as [e|payload].
  { left. repeat split. }
  destruct (dict_get payload "sub") as [[username|z|t]|];
    try (left; repeat split).
  destruct (find (by_username username) (users db)) as [u|];
    [|left; repeat split].
  destruct (User.is_active u) eqn:Ha.
  - split; [exact Ha | reflexivity].
  - right. split; reflexivity.
Qed.

End Resolution.

(** The same at a concrete call: [GET /api/users/me] with a bearer value
    that is not a token. *)
Example garbage_token_response :
  let out := main.serve_read_users_me (signer := sample.signer)
               (jwt.Opaque "garbage") 0 sample.db in
  fst (auth.get_current_user (signer := sample.signer)
         (jwt.Opaque "garbage") 0 sample.db)
  = inl (HTTPException 401 "Could not validate credentials"
                       [("WWW-Authenticate", "Bearer")])
  /\ fst (main.add_process_time_header "0.42" out)
     = {| main.status_code := 401;
          main.content := main.Detail "Could not validate credentials";
          main.headers := [("X-Process-Time", "0.42ms")] |}.
Proof. split; reflexivity. Qed.

(** ** Registration *)

Section Registration.
Context {pwd_context : CryptContext}.

(** C5. A registration whose username is taken, or whose email is taken,
    raises [ValueError] with a message naming the conflict and stores
    nothing; no handler translates that exception, so what the caller
    receives is the response of [global_exception_handler]: 500 with the
    detail "Internal server error". *)
Theorem duplicate_registration_response (user : schemas.UserCreate)
        (salt : string) (now : datetime) (db : Session) :
  let raised := fst (crud.create_user user salt now db) in
  let out := main.serve_register_user user salt now db in
  match find (by_username (schemas.username user)) (users db) with
  | Some _ =>
      raised = inl (ValueError "Username already registered")
      /\ fst out = main.JSONResponse 500 (main.Detail "Internal server error")
      /\ users (snd out) = users db
  | None =>
      match schemas.email user with
      | Some e =>
          match find (by_email e) (users db) with
          | Some _ =>
              if String.eqb e "" then True
              else
                raised = inl (ValueError "Email already registered")
                /\ fst out
                   = main.JSONResponse 500
                                       (main.Detail "Internal server error")
                /\ users (snd out) = users db
          | None => True
          end
      | None => True
      end
  end.
Proof.
  intros raised out. subst raised out.
  unfold main.serve_register_user, main.respond, main.register_user,
    crud.create_user, bind, crud.get_user_by_username, crud.get_user_by_email,
    raise, ret.
  fold (by_username (schemas.username user)). simpl.
  destruct (find (by_username (schemas.username user)) (users db)) as [u|].
  - repeat split.
  - destruct (schemas.email user) as [e|]; [|exact I].
    destruct (find (by_email e) (users db)) as [u|] eqn:He; [|exact I].
    unfold truthy_str.
    destruct (String.eqb e "") eqn:Hne; [exact I|]. simpl.
    fold (by_email e). rewrite He. repeat split.
Qed.

End Registration.

(** The scenario of the specification: [alice] registers, then the same
    request is sent again. *)
Example register_alice_twice :
  let user := {| schemas.username := "alice";
                 schemas.email := Some "alice@example.com";
                 schemas.password := "Passw0rd1" |} in
  let empty := {| users := []; items := []; statements := [] |} in
  let first := main.serve_register_user (pwd_context := sample.context)
                 user "s1" 0 empty in
  let second := main.serve_register_user (pwd_context := sample.context)
                  user "s2" 1 (snd first) in
  schemas.UserCreate_valid (unicode := sample.unicode) user = true
  /\ fst first = main.JSONResponse 201 (main.UserOut sample.alice)
  /\ fst (crud.create_user (pwd_context := sample.context)
            user "s2" 1 (snd first))
     = inl (ValueError "Username already registered")
  /\ fst second = main.JSONResponse 500 (main.Detail "Internal server error")
  /\ users (snd second) = [sample.alice].
Proof. repeat split. Qed.

(** ** The signing secret *)

(** C6. Importing the module succeeds in every environment and yields the
    key written in the source; the environment is not read and there is no
    refusal to start.  Every token is signed with that key. *)
Theorem secret_key_is_the_source_literal (environ : auth.Environ) :
  auth.import_module environ
  = inr {| auth.secret_key := "your-secret-key-please-change-in-production";
           auth.algorithm := "HS256";
           auth.access_token_expire_minutes := 30 |}
  /\ auth.import_module environ = auth.import_module []
  /\ forall (signer : jwt.Signer) (data : Dict)
            (expires_delta : option timedelta) (t t' : datetime),
      exists claims,
        auth.create_access_token data expires_delta t t'
        = jwt.Compact "HS256" claims
            (jwt.jws_sign "HS256"
                          "your-secret-key-please-change-in-production" claims).
Proof.
  repeat split.
  intros signer data expires_delta t t'.
  unfold auth.create_access_token, jwt.encode. eexists. reflexivity.
Qed.

(** ** Login and the active flag *)

Section LoginActive.
Context {pwd_context : CryptContext} {signer : jwt.Signer}.

(** C9. When the submitted username is that of a stored principal and the
    password verifies against its digest, the login answers 200 with a
    bearer token; the active flag of the principal is not among the
    conditions.  If the principal is inactive, it is the protected call
    presenting that token which answers 400. *)
Theorem login_ignores_active_flag
        (db : Session) (u p : string) (usr : User.t) (t0 t_iat : datetime)
        (Hfound : find (by_username u) (users db) = Some usr)
        (Hverify : pwd_verify p (User.hashed_password usr) = Some true) :
  let tok :=
    auth.create_access_token [("sub", Str (User.username usr))]
                             (Some (minutes 30)) t0 t_iat in
  fst (main.serve_login_for_access_token u p t0 t_iat db)
  = main.JSONResponse 200 (main.TokenOut tok "bearer")
  /\ (User.is_active usr = false ->
      forall now,
        timegm now <= timegm (t0 + minutes 30) ->
        fst (main.serve_read_users_me tok now db)
        = main.JSONResponse 400 (main.Detail "Inactive user")).
Proof.
  intros tok. split.
  - pose proof (authenticate_user_lookup u p db) as Ha.
    rewrite Hfound, Hverify in Ha.
    unfold main.serve_login_for_access_token, main.respond, main.login_for_access_token,
      auth.authenticate_user, bind.
    destruct (crud.authenticate_user u p db) as [r db'].
    simpl in Ha. subst r. reflexivity.
  - intros Hinactive now Hnow.
    assert (Hname : User.username usr = u).
    { apply find_some in Hfound. destruct Hfound as [_ H].
      apply String.eqb_eq. exact H. }
    pose proof (get_current_user_login_token (User.username usr)
                  t0 t_iat now db) as Hr.
    apply Z.ltb_ge in Hnow. rewrite Hnow in Hr.
    rewrite Hname in Hr at 2. rewrite Hfound, Hinactive in Hr.
    unfold main.serve_read_users_me, main.respond, main.read_users_me,
      auth.get_current_active_user, bind.
    subst tok. change (minutes 30) with (minutes auth.ACCESS_TOKEN_EXPIRE_MINUTES) at 1.
    destruct (auth.get_current_user _ now db) as [r db'].
    simpl in Hr. subst r. reflexivity.
Qed.

(** ** Login by email *)

(** C10. When no principal has the submitted string as username, the store
    is asked for a principal with that email exactly when the string
    contains ["@"]: then a principal found by email whose password verifies
    is authenticated and obtains a token; without ["@"] the only statement
    issued is the lookup by username and nobody is authenticated. *)
Theorem email_lookup_requires_at_sign
        (db : Session) (u p : string)
        (Hnone : find (by_username u) (users db) = None) :
  (contains_char "@"%char u = true ->
   statements (snd (crud.authenticate_user u p db))
   = (statements db ++ [SelectUserByUsername u; SelectUserByEmail u])%list
   /\ forall usr t0 t_iat,
       find (by_email u) (users db) = Some usr ->
       pwd_verify p (User.hashed_password usr) = Some true ->
       fst (crud.authenticate_user u p db) = inr (Some usr)
       /\ fst (main.serve_login_for_access_token u p t0 t_iat db)
          = main.JSONResponse 200
              (main.TokenOut
                 (auth.create_access_token
                    [("sub", Str (User.username usr))]
                    (Some (minutes 30)) t0 t_iat)
                 "bearer"))
  /\ (contains_char "@"%char u = false ->
      crud.authenticate_user u p db
      = (inr None, issue (SelectUserByUsername u) db)).
Proof.
  split.
  - intros Hat. split.
    + unfold crud.authenticate_user, crud.get_user_by_username,
        crud.get_user_by_email, crud.context_verify, bind, ret, raise.
      fold (by_username u). fold (by_email u). simpl.
      rewrite Hnone, Hat. simpl.
      destruct (find (by_email u) (users db)) as [usr|]; simpl.
      * destruct (pwd_verify p (User.hashed_password usr)) as [[|]|]; simpl;
          rewrite <- app_assoc; reflexivity.
      * rewrite <- app_assoc. reflexivity.
    + intros usr t0 t_iat Hmail Hverify.
      pose proof (authenticate_user_lookup u p db) as Ha.
      rewrite Hnone, Hat, Hmail, Hverify in Ha.
      split; [exact Ha|].
      unfold main.serve_login_for_access_token, main.respond, main.login_for_access_token,
        auth.authenticate_user, bind.
      destruct (crud.authenticate_user u p db) as [r db'].
      simpl in Ha. subst r. reflexivity.
  - intros Hat.
    unfold crud.authenticate_user, crud.get_user_by_username, bind, ret.
    fold (by_username u). simpl. rewrite Hnone, Hat. reflexivity.
Qed.

End LoginActive.

Lemma login_ignores_active_flag_witness :
  let tok :=
    auth.create_access_token (signer := sample.signer)
      [("sub", Str "carol")] (Some (minutes 30)) 0 0 in
  User.is_active sample.carol = false
  /\ fst (main.serve_login_for_access_token (pwd_context := sample.context)
            (signer := sample.signer) "carol" "Secret123" 0 0 sample.db)
     = main.JSONResponse 200 (main.TokenOut tok "bearer")
  /\ fst (main.serve_read_users_me (signer := sample.signer) tok (minutes 1)
            sample.db)
     = main.JSONResponse 400 (main.Detail "Inactive user").
Proof.
  intros tok.
  pose proof (login_ignores_active_flag
                (pwd_context := sample.context) (signer := sample.signer)
                sample.db "carol" "Secret123" sample.carol 0 0
                eq_refl eq_refl) as [Hlogin Hlater].
  split; [reflexivity|]. split; [exact Hlogin|].
  apply Hlater; [reflexivity|]. vm_compute. discriminate.
Defined.

Lemma email_lookup_requires_at_sign_witness :
  fst (crud.authenticate_user (pwd_context := sample.context)
         "alice@example.com" "Passw0rd1" sample.db)
  = inr (Some sample.alice)
  /\ statements (snd (crud.authenticate_user (pwd_context := sample.context)
                        "alice@example.com" "Passw0rd1" sample.db))
     = [SelectUserByUsername "alice@example.com";
        SelectUserByEmail "alice@example.com"]
  /\ crud.authenticate_user (pwd_context := sample.context)
       "alice.example.com" "Passw0rd1" sample.db
     = (inr None, issue (SelectUserByUsername "alice.example.com") sample.db).
Proof.
  pose proof (email_lookup_requires_at_sign
                (pwd_context := sample.context) (signer := sample.signer)
                sample.db "alice@example.com" "Passw0rd1" eq_refl)
    as [Hat _].
  pose proof (email_lookup_requires_at_sign
                (pwd_context := sample.context) (signer := sample.signer)
                sample.db "alice.example.com" "Passw0rd1" eq_refl)
    as [_ Hno].
  destruct (Hat eq_refl) as [Hstmts Hfound].
  split; [|split].
  - exact (proj1 (Hfound sample.alice 0 0 eq_refl eq_refl)).
  - exact Hstmts.
  - exact (Hno eq_refl).
Defined.

(** ** The client session *)

Section Client.
Context {transport : frontend.Transport}.

(** C7, as the code has it. In an active session whose last activity was
    at [last]: an interaction at most 30 minutes later refreshes the last
    activity to the current time and keeps token and principal, and this is
    the only case in which the check succeeds; an interaction more than 30
    minutes later clears token, principal and last activity, reports the
    timeout and ends the run of [main] there, without any request; a
    request attempted on the cleared session is not sent either. *)
Theorem session_timeout_after_30_minutes
        (st : frontend.SessionState) (last now1 now2 : datetime)
        (show_login_form show_pages : frontend.UI unit)
        (Htoken : frontend.truthy_token (frontend.token st) = true)
        (Huser : frontend.truthy_dict (frontend.user st) = true)
        (Hlast : frontend.last_activity st = Some last) :
  (now1 - last <= minutes 30 ->
   frontend.check_session_timeout now1 now2 st
   = (frontend.Done true, refreshed now2 st, []))
  /\ (fst (fst (frontend.check_session_timeout now1 now2 st))
      = frontend.Done true
      <-> now1 - last <= minutes 30)
  /\ (minutes 30 < now1 - last ->
      frontend.check_session_timeout now1 now2 st
      = (frontend.Done false, cleared st, [timeout_message])
      /\ frontend.main show_login_form show_pages now1 now2 st
         = (frontend.Done tt, cleared st, [timeout_message])
      /\ forall method endpoint,
          frontend.make_authenticated_request method endpoint (cleared st)
          = (frontend.Done None, cleared st, [])).
Proof.
  assert (Hcheck :
            frontend.check_session_timeout now1 now2 st
            = if minutes 30 <? now1 - last
              then (frontend.Done false, cleared st, [timeout_message])
              else (frontend.Done true, refreshed now2 st, [])).
  { unfold frontend.check_session_timeout, frontend.ui_bind,
      frontend.get_state. rewrite Hlast.
    destruct (minutes 30 <? now1 - last); reflexivity. }
  split; [|split].
  - intros H. rewrite Hcheck. apply Z.ltb_ge in H. rewrite H. reflexivity.
  - rewrite Hcheck. destruct (Z.ltb_spec (minutes 30) (now1 - last)); simpl.
    + split; [discriminate | lia].
    + split; [intros _; assumption | reflexivity].
  - intros H. apply Z.ltb_lt in H. rewrite H in Hcheck.
    split; [exact Hcheck|]. split.
    + unfold frontend.main, frontend.ui_bind, frontend.get_state.
      cbv beta iota. rewrite Htoken, Huser. cbn [negb orb].
      rewrite Hcheck. reflexivity.
    + intros method endpoint. reflexivity.
Qed.

End Client.

Lemma session_timeout_after_30_minutes_witness :
  frontend.check_session_timeout (minutes 30) (minutes 30 + 1) active_session
  = (frontend.Done true, refreshed (minutes 30 + 1) active_session, [])
  /\ frontend.check_session_timeout (minutes 31) (minutes 31) active_session
     = (frontend.Done false, cleared active_session, [timeout_message]).
Proof.
  pose proof (session_timeout_after_30_minutes
                (transport := {| frontend.requests_request :=
                                   fun _ _ _ => inl "unreachable" |})
                active_session 0 (minutes 30) (minutes 30 + 1)
                (frontend.ui_ret tt) (frontend.ui_ret tt)
                eq_refl eq_refl eq_refl) as [Hkeep _].
  pose proof (session_timeout_after_30_minutes
                (transport := {| frontend.requests_request :=
                                   fun _ _ _ => inl "unreachable" |})
                active_session 0 (minutes 31) (minutes 31)
                (frontend.ui_ret tt) (frontend.ui_ret tt)
                eq_refl eq_refl eq_refl) as [_ [_ Hdrop]].
  split.
  - apply Hkeep. vm_compute. discriminate.
  - apply Hdrop. reflexivity.
Defined.

(** C7, as worded: at exactly 30 minutes of inactivity the session is
    refreshed although the elapsed time is not under the limit. *)
Lemma session_kept_at_exactly_30_minutes :
  ~ refreshes_iff_under_limit active_session (minutes 30) (minutes 30).
Proof.
  unfold refreshes_iff_under_limit. intros H.
  destruct (H 0 eq_refl) as [Hkept _].
  assert (Hlt : minutes 30 - 0 < minutes 30) by (apply Hkept; reflexivity).
  vm_compute in Hlt. discriminate.
Qed.


(** * Further properties of the code *)

(** ** List and key lemmas *)

Lemma find_snoc {A} (p : A -> bool) (l : list A) (x : A) :
  find p (l ++ [x])
  = match find p l with
    | Some y => Some y
    | None => if p x then Some x else None
    end.
Proof.
  induction l as [|a l IH]; simpl; [reflexivity|].
  destruct (p a); [reflexivity | exact IH].
Qed.

Lemma existsb_find_none {A} (p : A -> bool) (l : list A) :
  find p l = None -> existsb p l = false.
Proof.
  induction l as [|a l IH]; simpl; [reflexivity|].
  destruct (p a); [discriminate | exact IH].
Qed.

Lemma existsb_pointwise {A} (p q : A -> bool) (l : list A) :
  (forall x, p x = q x) -> existsb p l = existsb q l.
Proof.
  intros H. induction l as [|a l IH]; simpl; [reflexivity|].
  rewrite H, IH. reflexivity.
Qed.

Lemma next_id_above (ids : list Z) (x : Z) :
  In x ids -> x < crud.next_id ids.
Proof.
  unfold crud.next_id. induction ids as [|a ids IH]; simpl; [contradiction|].
  intros [->|H]; [lia|]. specialize (IH H). lia.
Qed.

Lemma next_id_fresh (ids : list Z) : ~ In (crud.next_id ids) ids.
Proof. intros H. apply next_id_above in H. lia. Qed.

Lemma emails_app (l1 l2 : list User.t) :
  emails (l1 ++ l2) = (emails l1 ++ emails l2)%list.
Proof. unfold emails. apply flat_map_app. Qed.

Lemma find_by_username_none (username : string) (rows : list User.t) :
  find (by_username username) rows = None <->
  ~ In username (map User.username rows).
Proof.
  rewrite find_none_iff. split.
  - intros H Hin. apply in_map_iff in Hin. destruct Hin as [u [<- Hu]].
    specialize (H u Hu). unfold by_username in H.
    rewrite String.eqb_refl in H. discriminate.
  - intros H u Hu. unfold by_username. apply String.eqb_neq.
    intros <-. apply H. apply in_map. exact Hu.
Qed.

Lemma find_by_email_none (email : string) (rows : list User.t) :
  find (by_email email) rows = None <-> ~ In email (emails rows).
Proof.
  rewrite find_none_iff. unfold emails. split.
  - intros H Hin. apply in_flat_map in Hin. destruct Hin as [u [Hu He]].
    specialize (H u Hu). unfold by_email in H.
    destruct (User.email u) as [e|]; [|contradiction].
    destruct He as [<-|[]]. rewrite String.eqb_refl in H. discriminate.
  - intros H u Hu. unfold by_email.
    destruct (User.email u) as [e|] eqn:He; [|reflexivity].
    apply String.eqb_neq. intros <-. apply H. apply in_flat_map.
    exists u. split; [exact Hu|]. rewrite He. left. reflexivity.
Qed.

Lemma NoDup_snoc {A} (l : list A) (x : A) :
  NoDup l -> ~ In x l -> NoDup (l ++ [x]).
Proof.
  intros Hl Hx. apply NoDup_app; [exact Hl | constructor; [intros []|constructor] |].
  intros a Ha [<-|[]]. exact (Hx Ha).
Qed.

(** ** Registration, continued *)

Section RegistrationMore.
Context {pwd_context : CryptContext} {signer : jwt.Signer}.

Lemma insert_user_accepts (username : string) (email : option string)
      (hashed_password : string) (date_joined : datetime) (is_active : bool)
      (db : Session) :
  find (by_username username) (users db) = None ->
  match email with
  | Some e => find (by_email e) (users db) = None
  | None => True
  end ->
  crud.insert_user username email hashed_password date_joined is_active db
  = let row := User.mk (crud.next_id (map User.id (users db))) username email
                       hashed_password is_active date_joined in
    (inr row,
     {| users := (users db ++ [row])%list; items := items db;
        statements := statements db |}).
Proof.
  intros Hn He. unfold crud.insert_user.
  fold (by_username username).
  rewrite (existsb_find_none _ _ Hn).
  destruct email as [e|].
  - replace (existsb _ (users db)) with (existsb (by_email e) (users db)).
    + rewrite (existsb_find_none _ _ He). reflexivity.
    + apply existsb_pointwise. intros u. unfold by_email.
      destruct (User.email u) as [e'|]; reflexivity.
  - replace (existsb _ (users db)) with false; [reflexivity|].
    symmetry. apply existsb_find_none. apply find_none_iff.
    intros u _. destruct (User.email u); reflexivity.
Qed.

Lemma insert_user_data (username : string) (email : option string)
      (hashed_password : string) (date_joined : datetime) (is_active : bool)
      (db : Session) :
  let out := crud.insert_user username email hashed_password date_joined
                              is_active db in
  match fst out with
  | inr row =>
      users (snd out) = (users db ++ [row])%list
      /\ row = User.mk (crud.next_id (map User.id (users db))) username email
                       hashed_password is_active date_joined
      /\ find (by_username username) (users db) = None
      /\ match email with
         | Some e => find (by_email e) (users db) = None
         | None => True
         end
  | inl _ => users (snd out) = users db
  end
  /\ items (snd out) = items db.
Proof.
  unfold crud.insert_user. fold (by_username username).
  destruct (existsb (by_username username) (users db)) eqn:Hu; simpl;
    [split; reflexivity|].
  destruct (existsb _ (users db)) eqn:He in |- *; simpl; [split; reflexivity|].
  split; [|reflexivity]. repeat split.
  - apply find_none_iff. intros x Hx.
    destruct (by_username username x) eqn:Hp; [|reflexivity].
    assert (existsb (by_username username) (users db) = true)
      by (apply existsb_exists; eauto).
    congruence.
  - destruct email as [e|]; [|exact I].
    apply find_none_iff. intros x Hx. unfold by_email.
    destruct (User.email x) as [e'|] eqn:Hx'; [|reflexivity].
    destruct (String.eqb e' e) eqn:Hp; [|reflexivity].
    exfalso. apply not_true_iff_false in He. apply He.
    apply existsb_exists. exists x. split; [exact Hx|].
    rewrite Hx'. exact Hp.
Qed.

(** [crud.create_user] step by step. *)
Lemma create_user_run (user : schemas.UserCreate) (salt : string)
      (now : datetime) (db : Session) :
  crud.create_user user salt now db =
  let db1 := issue (SelectUserByUsername (schemas.username user)) db in
  let insert :=
    crud.insert_user (schemas.username user) (schemas.email user)
                     (pwd_hash salt (schemas.password user)) now true in
  match find (by_username (schemas.username user)) (users db) with
  | Some _ => (inl (ValueError "Username already registered"), db1)
  | None =>
      match schemas.email user with
      | Some e =>
          if String.eqb e "" then insert db1
          else
            match find (by_email e) (users db) with
            | Some _ =>
                (inl (ValueError "Email already registered"),
                 issue (SelectUserByEmail e) db1)
            | None => insert (issue (SelectUserByEmail e) db1)
            end
      | None => insert db1
      end
  end.
Proof.
  unfold crud.create_user, bind, crud.get_user_by_username,
    crud.get_user_by_email, crud.get_password_hash, raise, ret, truthy_str.
  fold (by_username (schemas.username user)). simpl.
  destruct (find (by_username (schemas.username user)) (users db)) as [u|];
    [reflexivity|].
  destruct (schemas.email user) as [e|]; [|reflexivity].
  destruct (String.eqb e ""); simpl; [reflexivity|].
  fold (by_email e).
  destruct (find (by_email e) (users db)); reflexivity.
Qed.

Lemma create_user_fresh (user : schemas.UserCreate) (salt : string)
      (now : datetime) (db : Session) :
  ~ In (schemas.username user) (map User.username (users db)) ->
  (forall e, schemas.email user = Some e -> ~ In e (emails (users db))) ->
  exists db',
    crud.create_user user salt now db
    = (inr (registered_row user salt now db), db')
    /\ users db' = (users db ++ [registered_row user salt now db])%list
    /\ items db' = items db.
Proof.
  intros Hname Hmail.
  apply find_by_username_none in Hname.
  assert (Hmail' : match schemas.email user with
                   | Some e => find (by_email e) (users db) = None
                   | None => True
                   end).
  { destruct (schemas.email user) as [e|]; [|exact I].
    apply find_by_email_none. apply Hmail. reflexivity. }
  rewrite create_user_run. cbv zeta. rewrite Hname. unfold registered_row.
  destruct (schemas.email user) as [e|].
  - destruct (String.eqb e "").
    + rewrite insert_user_accepts by (simpl; assumption).
      eexists. split; [reflexivity|]. split; reflexivity.
    + rewrite Hmail'.
      rewrite insert_user_accepts by (simpl; assumption).
      eexists. split; [reflexivity|]. split; reflexivity.
  - rewrite insert_user_accepts by (simpl; auto).
    eexists. split; [reflexivity|]. split; reflexivity.
Qed.

End RegistrationMore.

Section RegistrationProperties.
Context {pwd_context : CryptContext} {signer : jwt.Signer}.

(** X1. A registration whose username and email are not yet stored is
    answered 201 with the new row: active, with a primary key above every
    key in use, holding the digest of the password.  The row is appended to
    the table and is what the lookups by its username and by its email
    return afterwards. *)
Theorem register_then_lookup
        (user : schemas.UserCreate) (salt : string) (now : datetime)
        (db : Session)
        (Hname : ~ In (schemas.username user) (map User.username (users db)))
        (Hmail : forall e, schemas.email user = Some e ->
                           ~ In e (emails (users db))) :
  let row := registered_row user salt now db in
  let out := main.serve_register_user user salt now db in
  fst out = main.JSONResponse 201 (main.UserOut row)
  /\ users (snd out) = (users db ++ [row])%list
  /\ items (snd out) = items db
  /\ (forall u, In u (users db) -> User.id u < User.id row)
  /\ fst (crud.get_user_by_username (schemas.username user) (snd out))
     = inr (Some row)
  /\ (forall e, schemas.email user = Some e ->
                fst (crud.get_user_by_email e (snd out)) = inr (Some row)).
Proof.
  intros row out.
  pose proof (create_user_fresh user salt now db Hname Hmail) as Hrun.
  fold row in Hrun.
  apply find_by_username_none in Hname.
  assert (Hmail' : match schemas.email user with
                   | Some e => find (by_email e) (users db) = None
                   | None => True
                   end).
  { destruct (schemas.email user) as [e|]; [|exact I].
    apply find_by_email_none. apply Hmail. reflexivity. }
  destruct Hrun as [db' [Hrun [Husers Hitems]]].
  assert (Hout : out = (main.JSONResponse 201 (main.UserOut row), db')).
  { subst out. unfold main.serve_register_user, main.respond,
      main.register_user. rewrite Hrun. reflexivity. }
  rewrite Hout. simpl fst. simpl snd.
  split; [reflexivity|]. split; [exact Husers|]. split; [exact Hitems|].
  split; [|split].
  - intros u Hu. subst row. simpl.
    apply next_id_above. apply in_map. exact Hu.
  - unfold crud.get_user_by_username. simpl.
    fold (by_username (schemas.username user)).
    rewrite Husers, find_snoc, Hname. unfold by_username. subst row. simpl.
    rewrite String.eqb_refl. reflexivity.
  - intros e He. unfold crud.get_user_by_email. simpl. fold (by_email e).
    rewrite Husers, find_snoc. rewrite He in Hmail'. rewrite Hmail'.
    unfold by_email. subst row. simpl. rewrite He, String.eqb_refl.
    reflexivity.
Qed.

(** X2. Registration followed by login: when the password context verifies
    a password against the digest it made of it, the principal just
    registered logs in with the same username and password and receives a
    bearer token, and a protected call with that token within its lifetime
    returns the registered row. *)
Theorem register_then_login
        (user : schemas.UserCreate) (salt : string) (now t0 t_iat t : datetime)
        (db : Session)
        (Hname : ~ In (schemas.username user) (map User.username (users db)))
        (Hmail : forall e, schemas.email user = Some e ->
                           ~ In e (emails (users db)))
        (Hverify : pwd_verify (schemas.password user)
                              (pwd_hash salt (schemas.password user))
                   = Some true)
        (Hlife : timegm t <= timegm (t0 + minutes 30)) :
  let row := registered_row user salt now db in
  let db' := snd (main.serve_register_user user salt now db) in
  let tok :=
    auth.create_access_token [("sub", Str (schemas.username user))]
                             (Some (minutes 30)) t0 t_iat in
  fst (main.serve_login_for_access_token
         (schemas.username user) (schemas.password user) t0 t_iat db')
  = main.JSONResponse 200 (main.TokenOut tok "bearer")
  /\ fst (main.serve_read_users_me tok t db')
     = main.JSONResponse 200 (main.UserOut row).
Proof.
  intros row db' tok.
  assert (Hfind : find (by_username (schemas.username user)) (users db')
                  = Some row).
  { pose proof (find_by_username_none (schemas.username user) (users db))
      as [_ Hn]. specialize (Hn Hname).
    assert (Husers : users db' = (users db ++ [row])%list).
    { destruct (create_user_fresh user salt now db Hname Hmail)
        as [db1 [Hrun [Husers _]]].
      subst db'. unfold main.serve_register_user, main.respond,
        main.register_user. rewrite Hrun. exact Husers. }
    rewrite Husers, find_snoc, Hn. unfold by_username. subst row. simpl.
    rewrite String.eqb_refl. reflexivity. }
  split.
  - pose proof (authenticate_user_lookup
                  (schemas.username user) (schemas.password user) db') as Ha.
    rewrite Hfind in Ha. subst row. simpl in Ha. rewrite Hverify in Ha.
    unfold main.serve_login_for_access_token, main.respond,
      main.login_for_access_token, auth.authenticate_user, bind.
    destruct (crud.authenticate_user _ _ db') as [r db''].
    simpl in Ha. subst r. reflexivity.
  - pose proof (get_current_user_login_token (schemas.username user)
                  t0 t_iat t db') as Hr.
    apply Z.ltb_ge in Hlife. rewrite Hlife, Hfind in Hr.
    subst row. simpl in Hr.
    unfold main.serve_read_users_me, main.respond, main.read_users_me,
      auth.get_current_active_user, bind.
    subst tok.
    change (minutes 30) with (minutes auth.ACCESS_TOKEN_EXPIRE_MINUTES) at 1.
    destruct (auth.get_current_user _ t db') as [r db''].
    simpl in Hr. subst r. reflexivity.
Qed.

(** X3. Whatever the request and whatever its outcome, [create_user]
    leaves the [users] table with pairwise distinct primary keys, usernames
    and non-null emails if it found it so. *)
Theorem create_user_keeps_users_unique
        (user : schemas.UserCreate) (salt : string) (now : datetime)
        (db : Session) (Huniq : users_unique db) :
  users_unique (snd (crud.create_user user salt now db)).
Proof.
  assert (Hins : forall db1,
             users db1 = users db ->
             users_unique
               (snd (crud.insert_user
                       (schemas.username user) (schemas.email user)
                       (pwd_hash salt (schemas.password user)) now true db1))).
  { intros db1 H1.
    pose proof (insert_user_data
                  (schemas.username user) (schemas.email user)
                  (pwd_hash salt (schemas.password user)) now true db1)
      as [Hd _].
    cbv zeta in Hd.
    destruct (fst (crud.insert_user _ _ _ _ _ db1)) as [e|row].
    - unfold users_unique. rewrite Hd, H1. exact Huniq.
    - destruct Hd as [Hu [Hrow [Hn He]]].
      destruct Huniq as [Hid [Hnm Hem]].
      unfold users_unique. rewrite Hu, H1 in *.
      rewrite !map_app, emails_app. simpl. repeat split.
      + apply NoDup_snoc; [exact Hid|]. rewrite Hrow. simpl.
        apply next_id_fresh.
      + apply NoDup_snoc; [exact Hnm|]. rewrite Hrow. simpl.
        apply find_by_username_none. exact Hn.
      + rewrite Hrow. simpl.
        destruct (schemas.email user) as [e|]; simpl.
        * apply NoDup_snoc; [exact Hem|]. apply find_by_email_none. exact He.
        * rewrite app_nil_r. exact Hem. }
  rewrite create_user_run. cbv zeta.
  destruct (find (by_username (schemas.username user)) (users db)); simpl;
    [exact Huniq|].
  destruct (schemas.email user) as [e|] eqn:He.
  - destruct (String.eqb e ""); [apply Hins; reflexivity|].
    destruct (find (by_email e) (users db)); simpl; [exact Huniq|].
    apply Hins. reflexivity.
  - apply Hins. reflexivity.
Qed.

(** X4. The two checks of [create_user] leave nothing for the constraints
    of the store to refuse: for a request whose email is absent or not the
    empty string, the outcome is the username conflict, the email conflict,
    or the stored row, in this order of precedence. *)
Theorem create_user_outcomes
        (user : schemas.UserCreate) (salt : string) (now : datetime)
        (db : Session) (Hemail : schemas.email user <> Some "") :
  fst (crud.create_user user salt now db) =
  match find (by_username (schemas.username user)) (users db) with
  | Some _ => inl (ValueError "Username already registered")
  | None =>
      match schemas.email user with
      | Some e =>
          match find (by_email e) (users db) with
          | Some _ => inl (ValueError "Email already registered")
          | None => inr (registered_row user salt now db)
          end
      | None => inr (registered_row user salt now db)
      end
  end.
Proof.
  rewrite create_user_run. cbv zeta. unfold registered_row.
  destruct (find (by_username (schemas.username user)) (users db)) eqn:Hn;
    [reflexivity|].
  destruct (schemas.email user) as [e|] eqn:He.
  - destruct (String.eqb_spec e ""); [subst e; contradiction|].
    destruct (find (by_email e) (users db)) eqn:Hm; [reflexivity|].
    rewrite insert_user_accepts by (simpl; assumption). reflexivity.
  - rewrite insert_user_accepts by (simpl; auto). reflexivity.
Qed.

End RegistrationProperties.

Lemma sample_users_unique : users_unique sample.db.
Proof.
  unfold users_unique. simpl.
  repeat split; repeat constructor; simpl; intuition discriminate.
Qed.

Lemma sample_dave_new :
  ~ In (schemas.username sample.dave) (map User.username (users sample.db))
  /\ (forall e, schemas.email sample.dave = Some e ->
                ~ In e (emails (users sample.db))).
Proof.
  split.
  - simpl. intuition discriminate.
  - intros e He. injection He as <-. simpl. intuition discriminate.
Qed.

Lemma register_then_lookup_witness :
  fst (main.serve_register_user (pwd_context := sample.context)
         sample.dave "s4" 9 sample.db)
  = main.JSONResponse 201 (main.UserOut sample.dave_row)
  /\ fst (crud.get_user_by_username "dave"
            (snd (main.serve_register_user (pwd_context := sample.context)
                    sample.dave "s4" 9 sample.db)))
     = inr (Some sample.dave_row).
Proof.
  pose proof (register_then_lookup (pwd_context := sample.context)
                sample.dave "s4" 9 sample.db
                (proj1 sample_dave_new) (proj2 sample_dave_new)) as H.
  split.
  - exact (proj1 H).
  - exact (proj1 (proj2 (proj2 (proj2 (proj2 H))))).
Defined.

Lemma register_then_login_witness :
  let db' := snd (main.serve_register_user (pwd_context := sample.context)
                    sample.dave "s4" 9 sample.db) in
  let tok := auth.create_access_token (signer := sample.signer)
               [("sub", Str "dave")] (Some (minutes 30)) 100 100 in
  fst (main.serve_login_for_access_token (pwd_context := sample.context)
         (signer := sample.signer) "dave" "Str0ngPass" 100 100 db')
  = main.JSONResponse 200 (main.TokenOut tok "bearer")
  /\ fst (main.serve_read_users_me (signer := sample.signer) tok
            (minutes 30) db')
     = main.JSONResponse 200 (main.UserOut sample.dave_row).
Proof.
  apply (register_then_login (pwd_context := sample.context)
           (signer := sample.signer) sample.dave "s4" 9 100 100 (minutes 30)
           sample.db (proj1 sample_dave_new) (proj2 sample_dave_new)).
  - reflexivity.
  - vm_compute. discriminate.
Defined.

Lemma create_user_keeps_users_unique_witness :
  users_unique (snd (crud.create_user (pwd_context := sample.context)
                       sample.dave "s4" 9 sample.db)).
Proof.
  apply (create_user_keeps_users_unique (pwd_context := sample.context)).
  exact sample_users_unique.
Defined.

Lemma create_user_outcomes_witness :
  fst (crud.create_user (pwd_context := sample.context)
         sample.dave "s4" 9 sample.db)
  = inr sample.dave_row
  /\ fst (crud.create_user (pwd_context := sample.context)
            {| schemas.username := "erin";
               schemas.email := Some "alice@example.com";
               schemas.password := "Str0ngPass" |} "s5" 9 sample.db)
     = inl (ValueError "Email already registered").
Proof.
  split.
  - apply (create_user_outcomes (pwd_context := sample.context)
             sample.dave "s4" 9 sample.db). discriminate.
  - apply (create_user_outcomes (pwd_context := sample.context)
             {| schemas.username := "erin";
                schemas.email := Some "alice@example.com";
                schemas.password := "Str0ngPass" |} "s5" 9 sample.db).
    discriminate.
Defined.

(** ** Inventory items *)

Lemma replace_row_ids (row : InventoryItem.t) (rows : list InventoryItem.t) :
  map InventoryItem.id (crud.replace_row row rows) = map InventoryItem.id rows.
Proof.
  induction rows as [|r rows IH]; simpl; [reflexivity|].
  destruct (Z.eqb_spec (InventoryItem.id r) (InventoryItem.id row)); simpl.
  - congruence.
  - rewrite IH. reflexivity.
Qed.

Lemma remove_row_incl (item_id : Z) (rows : list InventoryItem.t) (x : Z) :
  In x (map InventoryItem.id (crud.remove_row item_id rows)) ->
  In x (map InventoryItem.id rows).
Proof.
  induction rows as [|r rows IH]; simpl; [tauto|].
  destruct (InventoryItem.id r =? item_id); simpl; tauto.
Qed.

Lemma remove_row_NoDup (item_id : Z) (rows : list InventoryItem.t) :
  NoDup (map InventoryItem.id rows) ->
  NoDup (map InventoryItem.id (crud.remove_row item_id rows)).
Proof.
  induction rows as [|r rows IH]; simpl; intros H; [exact H|].
  inversion H as [|? ? Hnotin Hrest]; subst.
  destruct (InventoryItem.id r =? item_id); simpl; [exact Hrest|].
  constructor; [|apply IH; exact Hrest].
  intros Hin. apply Hnotin. eapply remove_row_incl. exact Hin.
Qed.

Lemma find_by_item_id_none (item_id : Z) (rows : list InventoryItem.t) :
  ~ In item_id (map InventoryItem.id rows) ->
  find (by_item_id item_id) rows = None.
Proof.
  intros H. apply find_none_iff. intros x Hx. unfold by_item_id.
  apply Z.eqb_neq. intros <-. apply H. apply in_map. exact Hx.
Qed.

Lemma remove_row_gone (item_id : Z) (rows : list InventoryItem.t) :
  NoDup (map InventoryItem.id rows) ->
  find (by_item_id item_id) (crud.remove_row item_id rows) = None.
Proof.
  induction rows as [|r rows IH]; simpl; intros H; [reflexivity|].
  inversion H as [|? ? Hnotin Hrest]; subst.
  destruct (Z.eqb_spec (InventoryItem.id r) item_id) as [Heq|Hne].
  - subst item_id. apply find_by_item_id_none. exact Hnotin.
  - simpl. unfold by_item_id at 1.
    apply Z.eqb_neq in Hne. rewrite Hne. apply IH. exact Hrest.
Qed.

Lemma remove_row_other (item_id j : Z) (rows : list InventoryItem.t) :
  j <> item_id ->
  find (by_item_id j) (crud.remove_row item_id rows)
  = find (by_item_id j) rows.
Proof.
  intros Hj. induction rows as [|r rows IH]; simpl; [reflexivity|].
  destruct (Z.eqb_spec (InventoryItem.id r) item_id) as [Heq|Hne]; simpl.
  - unfold by_item_id at 2. rewrite Heq.
    apply Z.eqb_neq in Hj. rewrite Z.eqb_sym, Hj. reflexivity.
  - unfold by_item_id at 1 3.
    destruct (InventoryItem.id r =? j); [reflexivity | exact IH].
Qed.

Lemma replace_row_found (row old : InventoryItem.t)
      (rows : list InventoryItem.t) :
  find (by_item_id (InventoryItem.id row)) rows = Some old ->
  find (by_item_id (InventoryItem.id row)) (crud.replace_row row rows)
  = Some row.
Proof.
  induction rows as [|r rows IH]; simpl; [discriminate|].
  unfold by_item_id at 1.
  destruct (InventoryItem.id r =? InventoryItem.id row) eqn:Hr; simpl.
  - intros _. unfold by_item_id. rewrite Z.eqb_refl. reflexivity.
  - intros H. unfold by_item_id at 1. rewrite Hr. apply IH. exact H.
Qed.

Lemma replace_row_other (row : InventoryItem.t) (j : Z)
      (rows : list InventoryItem.t) :
  j <> InventoryItem.id row ->
  find (by_item_id j) (crud.replace_row row rows)
  = find (by_item_id j) rows.
Proof.
  intros Hj. induction rows as [|r rows IH]; simpl; [reflexivity|].
  destruct (Z.eqb_spec (InventoryItem.id r) (InventoryItem.id row))
    as [Heq|Hne]; simpl.
  - unfold by_item_id. rewrite Heq.
    apply Z.eqb_neq in Hj. rewrite Z.eqb_sym, Hj. reflexivity.
  - unfold by_item_id at 1 3.
    destruct (InventoryItem.id r =? j); [reflexivity | exact IH].
Qed.

Lemma replace_row_owned (row old : InventoryItem.t) (other : Z)
      (rows : list InventoryItem.t) :
  find (by_item_id (InventoryItem.id row)) rows = Some old ->
  InventoryItem.owner_id old <> other ->
  InventoryItem.owner_id row <> other ->
  owned_by other (crud.replace_row row rows) = owned_by other rows.
Proof.
  intros Hf Ho Hr. revert Hf.
  induction rows as [|r rows IH]; simpl; [reflexivity|].
  unfold by_item_id at 1.
  destruct (InventoryItem.id r =? InventoryItem.id row); simpl.
  - intros H. injection H as ->.
    apply Z.eqb_neq in Ho, Hr. rewrite Ho, Hr. reflexivity.
  - intros H. rewrite (IH H). reflexivity.
Qed.

Lemma remove_row_owned (item_id other : Z) (old : InventoryItem.t)
      (rows : list InventoryItem.t) :
  find (by_item_id item_id) rows = Some old ->
  InventoryItem.owner_id old <> other ->
  owned_by other (crud.remove_row item_id rows) = owned_by other rows.
Proof.
  intros Hf Ho. revert Hf.
  induction rows as [|r rows IH]; simpl; [reflexivity|].
  unfold by_item_id at 1.
  destruct (InventoryItem.id r =? item_id); simpl.
  - intros H. injection H as ->.
    apply Z.eqb_neq in Ho. rewrite Ho. reflexivity.
  - intros H. rewrite (IH H). reflexivity.
Qed.

Lemma apply_update_keeps (it row : InventoryItem.t)
      (item : schemas.InventoryItemUpdate) (now : datetime) :
  crud.apply_update it item now = Some row ->
  InventoryItem.id row = InventoryItem.id it
  /\ InventoryItem.owner_id row = InventoryItem.owner_id it
  /\ InventoryItem.date_created row = InventoryItem.date_created it
  /\ InventoryItem.date_updated row = Some now.
Proof.
  unfold crud.apply_update.
  destruct (schemas.name item) as [[n|]|];
    destruct (schemas.quantity item) as [[q|]|];
    destruct (schemas.price item) as [[p|]|];
    try discriminate; intros H; injection H as <-; simpl; auto.
Qed.

Section ItemHandlers.
Context {signer : jwt.Signer}.

(** The dependency of every protected route: it returns what
    [get_current_user] returns and leaves both tables as they are. *)
Lemma resolve_run (token : jwt.Token) (now : datetime) (db : Session) :
  exists db1,
    auth.get_current_active_user token now db
    = (fst (auth.get_current_user token now db), db1)
    /\ users db1 = users db /\ items db1 = items db.
Proof.
  unfold auth.get_current_active_user.
  pose proof (get_current_user_frame token now db) as [Hu Hi].
  destruct (auth.get_current_user token now db) as [r db1].
  exists db1. simpl in *. auto.
Qed.

(** The principal a token resolves to depends on the [users] table only. *)
Lemma resolve_users_only (token : jwt.Token) (now : datetime)
      (db db' : Session) :
  users db = users db' ->
  fst (auth.get_current_user token now db)
  = fst (auth.get_current_user token now db').
Proof.
  intros H. rewrite !get_current_user_cases, H. reflexivity.
Qed.

Ltac run_guard token now db item_id current_user Hauth :=
  let db1 := fresh "db1" in
  let Hrun := fresh "Hrun" in
  let Hu := fresh "Hu" in
  let Hi := fresh "Hi" in
  destruct (resolve_run token now db) as [db1 [Hrun [Hu Hi]]];
  rewrite Hauth in Hrun;
  exists db1; split; [exact Hu|]; split; [exact Hi|];
  unfold main.read_item, main.update_item, main.delete_item, bind at 1;
  rewrite Hrun; unfold bind at 1, crud.get_item at 1; cbv beta iota;
  destruct (fits_int64 item_id); [|reflexivity];
  simpl items; rewrite Hi; fold (by_item_id item_id);
  destruct (find (by_item_id item_id) (items db)) as [it|];
  [destruct (InventoryItem.owner_id it =? User.id current_user)|];
  reflexivity.

Lemma read_item_run (token : jwt.Token) (now : datetime) (item_id : Z)
      (db : Session) (current_user : User.t) :
  fst (auth.get_current_user token now db) = inr current_user ->
  exists db1,
    users db1 = users db /\ items db1 = items db /\
    main.read_item token now item_id db =
    if fits_int64 item_id
    then
      match find (by_item_id item_id) (items db) with
      | None => (inl (HTTPException 404 "Item not found" []),
                 issue (SelectItemById item_id) db1)
      | Some it =>
          if InventoryItem.owner_id it =? User.id current_user
          then (inr it, issue (SelectItemById item_id) db1)
          else (inl (HTTPException 403 "Not enough permissions" []),
                issue (SelectItemById item_id) db1)
      end
    else (inl OverflowError, db1).
Proof. intros Hauth. run_guard token now db item_id current_user Hauth. Qed.

Lemma update_item_run (token : jwt.Token) (now : datetime) (item_id : Z)
      (item : schemas.InventoryItemUpdate) (now_upd : datetime)
      (db : Session) (current_user : User.t) :
  fst (auth.get_current_user token now db) = inr current_user ->
  exists db1,
    users db1 = users db /\ items db1 = items db /\
    main.update_item token now item_id item now_upd db =
    if fits_int64 item_id
    then
      match find (by_item_id item_id) (items db) with
      | None => (inl (HTTPException 404 "Item not found" []),
                 issue (SelectItemById item_id) db1)
      | Some it =>
          if InventoryItem.owner_id it =? User.id current_user
          then crud.update_item it item now_upd
                                (issue (SelectItemById item_id) db1)
          else (inl (HTTPException 403 "Not enough permissions" []),
                issue (SelectItemById item_id) db1)
      end
    else (inl OverflowError, db1).
Proof. intros Hauth. run_guard token now db item_id current_user Hauth. Qed.

Lemma delete_item_run (token : jwt.Token) (now : datetime) (item_id : Z)
      (db : Session) (current_user : User.t) :
  fst (auth.get_current_user token now db) = inr current_user ->
  exists db1,
    users db1 = users db /\ items db1 = items db /\
    main.delete_item token now item_id db =
    if fits_int64 item_id
    then
      match find (by_item_id item_id) (items db) with
      | None => (inl (HTTPException 404 "Item not found" []),
                 issue (SelectItemById item_id) db1)
      | Some it =>
          if InventoryItem.owner_id it =? User.id current_user
          then (inr true,
                {| users := users db;
                   items := crud.remove_row item_id (items db);
                   statements :=
                     (statements db1
                      ++ [SelectItemById item_id; SelectItemById item_id])%list
                |})
          else (inl (HTTPException 403 "Not enough permissions" []),
                issue (SelectItemById item_id) db1)
      end
    else (inl OverflowError, db1).
Proof.
  intros Hauth.
  destruct (resolve_run token now db) as [db1 [Hrun [Hu Hi]]].
  rewrite Hauth in Hrun.
  exists db1. split; [exact Hu|]. split; [exact Hi|].
  unfold main.delete_item, bind at 1. rewrite Hrun.
  unfold bind at 1, crud.get_item at 1. cbv beta iota.
  destruct (fits_int64 item_id) eqn:Hrange; [|reflexivity].
  simpl items. rewrite Hi. fold (by_item_id item_id).
  destruct (find (by_item_id item_id) (items db)) as [it|] eqn:Hf;
    [|reflexivity].
  destruct (InventoryItem.owner_id it =? User.id current_user);
    [|reflexivity].
  simpl negb. cbv iota.
  unfold bind, crud.delete_item, bind, crud.get_item, ret.
  rewrite Hrange. simpl.
  rewrite Hi. fold (by_item_id item_id). rewrite Hf. simpl.
  rewrite Hi, Hu, <- app_assoc.
  assert (Hid : InventoryItem.id it = item_id).
  { apply find_some in Hf. apply Z.eqb_eq. exact (proj2 Hf). }
  rewrite Hid. reflexivity.
Qed.

Lemma guard_refuses {A} (token : jwt.Token) (now : datetime) (db : Session)
      (e : Exc) (k : User.t -> M A) :
  fst (auth.get_current_user token now db) = inl e ->
  exists db1,
    users db1 = users db /\ items db1 = items db /\
    bind (auth.get_current_active_user token now) k db = (inl e, db1).
Proof.
  intros Hauth.
  destruct (resolve_run token now db) as [db1 [Hrun [Hu Hi]]].
  rewrite Hauth in Hrun. exists db1.
  split; [exact Hu|]. split; [exact Hi|].
  unfold bind. rewrite Hrun. reflexivity.
Qed.

Lemma create_item_run (item : schemas.InventoryItemCreate.t)
      (token : jwt.Token) (now now_created : datetime) (db : Session)
      (current_user : User.t) :
  fst (auth.get_current_user token now db) = inr current_user ->
  exists db1,
    users db1 = users db /\ items db1 = items db /\
    main.create_item item token now now_created db =
    let row :=
      InventoryItem.mk (crud.next_id (map InventoryItem.id (items db)))
                       (schemas.InventoryItemCreate.name item)
                       (schemas.InventoryItemCreate.description item)
                       (schemas.InventoryItemCreate.quantity item)
                       (schemas.InventoryItemCreate.price item)
                       now_created None (User.id current_user) in
    if fits_int64 (schemas.InventoryItemCreate.quantity item)
    then (inr row,
          {| users := users db1; items := (items db ++ [row])%list;
             statements := statements db1 |})
    else (inl OverflowError, db1).
Proof.
  intros Hauth.
  destruct (resolve_run token now db) as [db1 [Hrun [Hu Hi]]].
  rewrite Hauth in Hrun. exists db1. split; [exact Hu|]. split; [exact Hi|].
  unfold main.create_item, bind. rewrite Hrun.
  unfold crud.create_user_item, except_SQLAlchemyError, crud.insert_item.
  cbv beta iota zeta.
  destruct (fits_int64 (schemas.InventoryItemCreate.quantity item));
    [|reflexivity].
  simpl. rewrite Hi. reflexivity.
Qed.

Lemma read_items_run (skip limit : Z) (token : jwt.Token) (now : datetime)
      (db : Session) (current_user : User.t) :
  fst (auth.get_current_user token now db) = inr current_user ->
  exists db1,
    users db1 = users db /\ items db1 = items db /\
    main.read_items skip limit token now db =
    if fits_int64 skip && fits_int64 limit
    then (inr (crud.sql_limit limit
                 (crud.sql_offset skip
                    (owned_by (User.id current_user) (items db)))),
          db1)
    else (inl OverflowError, db1).
Proof.
  intros Hauth.
  destruct (resolve_run token now db) as [db1 [Hrun [Hu Hi]]].
  rewrite Hauth in Hrun. exists db1.
  split; [exact Hu|]. split; [exact Hi|].
  unfold main.read_items, bind. rewrite Hrun.
  unfold crud.get_items, ret, owned_by. cbv beta iota zeta.
  destruct (fits_int64 skip && fits_int64 limit); [|reflexivity].
  simpl. rewrite Hi. reflexivity.
Qed.

End ItemHandlers.

Section ItemProperties.
Context {signer : jwt.Signer}.

Lemma respond_snd {A} (route_status : Z) (render : A -> main.Content)
      (handler : M A) (db : Session) :
  snd (main.respond route_status render handler db) = snd (handler db).
Proof.
  unfold main.respond. destruct (handler db) as [[e|a] db'].
  - destruct e; reflexivity.
  - destruct (main.json_compliant (render a)); reflexivity.
Qed.

Lemma respond_ok {A} (route_status : Z) (render : A -> main.Content)
      (handler : M A) (db : Session) (a : A) :
  fst (handler db) = inr a ->
  main.json_compliant (render a) = true ->
  fst (main.respond route_status render handler db)
  = main.JSONResponse route_status (render a).
Proof.
  unfold main.respond. destruct (handler db) as [r db']. simpl.
  intros -> ->. reflexivity.
Qed.

Lemma respond_http {A} (route_status : Z) (render : A -> main.Content)
      (handler : M A) (db : Session) (status : Z) (detail : string)
      (headers : list (string * string)) :
  fst (handler db) = inl (HTTPException status detail headers) ->
  fst (main.respond route_status render handler db)
  = main.JSONResponse status (main.Detail detail).
Proof.
  unfold main.respond. destruct (handler db) as [r db']. simpl.
  intros ->. reflexivity.
Qed.

Lemma update_item_store (it : InventoryItem.t)
      (item : schemas.InventoryItemUpdate) (now : datetime) (db : Session) :
  crud.update_item it item now db =
  if negb (crud.update_binds item) then (inl OverflowError, db)
  else
    match crud.apply_update it item now with
    | Some row =>
        (inr row,
         {| users := users db; items := crud.replace_row row (items db);
            statements := statements db |})
    | None =>
        (inl (HTTPException
                500 "Error updating item: NOT NULL constraint failed" []),
         db)
    end.
Proof.
  unfold crud.update_item, except_SQLAlchemyError, crud.commit_update, raise.
  destruct (negb (crud.update_binds item)); [reflexivity|].
  destruct (crud.apply_update it item now); reflexivity.
Qed.

(** X5. An item created by a resolved principal, with a quantity in the
    64-bit range of the store and a finite price, is answered 201 with a
    row owned by that principal, whose primary key is above every key in
    use; the row is appended to the table.  While that key is itself in
    the range of the store, reading it afterwards returns the row to its
    creator and is answered 403 for every other principal. *)
Theorem create_item_then_read
        (item : schemas.InventoryItemCreate.t) (token : jwt.Token)
        (now now_created : datetime) (db : Session) (creator : User.t)
        (Hauth : fst (auth.get_current_user token now db) = inr creator)
        (Hquantity :
           fits_int64 (schemas.InventoryItemCreate.quantity item) = true)
        (Hprice :
           PrimFloat.is_finite (schemas.InventoryItemCreate.price item) = true)
        (Hkey : fits_int64 (crud.next_id (map InventoryItem.id (items db)))
                = true) :
  let row :=
    InventoryItem.mk (crud.next_id (map InventoryItem.id (items db)))
                     (schemas.InventoryItemCreate.name item)
                     (schemas.InventoryItemCreate.description item)
                     (schemas.InventoryItemCreate.quantity item)
                     (schemas.InventoryItemCreate.price item)
                     now_created None (User.id creator) in
  let out := main.serve_create_item item token now now_created db in
  fst out = main.JSONResponse 201 (main.ItemOut row)
  /\ items (snd out) = (items db ++ [row])%list
  /\ users (snd out) = users db
  /\ (forall i, In i (items db) -> InventoryItem.id i < InventoryItem.id row)
  /\ (forall token2 now2 reader,
         fst (auth.get_current_user token2 now2 db) = inr reader ->
         fst (main.serve_read_item token2 now2 (InventoryItem.id row) (snd out))
         = if User.id reader =? User.id creator
           then main.JSONResponse 200 (main.ItemOut row)
           else main.JSONResponse 403 (main.Detail "Not enough permissions")).
Proof.
  intros row out.
  destruct (create_item_run item token now now_created db creator Hauth)
    as [db1 [Hu [_ Hrun]]].
  cbv zeta in Hrun. rewrite Hquantity in Hrun. fold row in Hrun.
  assert (Hid : InventoryItem.id row
                = crud.next_id (map InventoryItem.id (items db)))
    by reflexivity.
  assert (Hown : InventoryItem.owner_id row = User.id creator)
    by reflexivity.
  assert (Hfinite : main.json_compliant (main.ItemOut row) = true)
    by exact Hprice.
  clearbody row.
  set (db' := {| users := users db1; items := (items db ++ [row])%list;
                 statements := statements db1 |}) in *.
  assert (Hout : out = (main.JSONResponse 201 (main.ItemOut row), db')).
  { subst out. unfold main.serve_create_item, main.respond.
    rewrite Hrun, Hfinite. reflexivity. }
  clearbody out. subst out. unfold fst at 1, snd at 1 2.
  split; [reflexivity|]. split; [reflexivity|]. split; [exact Hu|].
  split.
  - intros i Hi. rewrite Hid. apply next_id_above. apply in_map. exact Hi.
  - intros token2 now2 reader Hreader. unfold snd.
    assert (Hreader' : fst (auth.get_current_user token2 now2 db')
                       = inr reader).
    { rewrite <- Hreader. apply resolve_users_only. exact Hu. }
    destruct (read_item_run token2 now2 (InventoryItem.id row) db' reader
                Hreader') as [db2 [_ [_ Hread]]].
    assert (Hkey' : fits_int64 (InventoryItem.id row) = true)
      by (rewrite Hid; exact Hkey).
    rewrite Hkey' in Hread.
    assert (Hfind : find (by_item_id (InventoryItem.id row)) (items db')
                    = Some row).
    { unfold db'. unfold items at 1. rewrite find_snoc.
      rewrite find_by_item_id_none by (rewrite Hid; apply next_id_fresh).
      unfold by_item_id. rewrite Z.eqb_refl. reflexivity. }
    rewrite Hfind, Hown in Hread.
    unfold main.serve_read_item, main.respond. rewrite Hread.
    rewrite (Z.eqb_sym (User.id creator)).
    destruct (User.id reader =? User.id creator);
      [rewrite Hfinite|]; reflexivity.
Qed.

(** X6. Every route on items keeps the primary keys of the table pairwise
    distinct, whatever the token, the payload and the outcome. *)
Theorem item_routes_keep_ids_unique
        (method : main.Method) (token : jwt.Token) (now : datetime)
        (item_id : Z) (item : schemas.InventoryItemCreate.t)
        (now_created : datetime) (db : Session)
        (Huniq : items_unique db) :
  items_unique (snd (main.api_items_item_id method token now item_id db))
  /\ items_unique (snd (main.serve_create_item item token now now_created db)).
Proof.
  unfold items_unique in *.
  destruct (fst (auth.get_current_user token now db)) as [e|cu] eqn:Hauth.
  - split.
    + destruct method; simpl;
        unfold main.serve_read_item, main.serve_update_item,
          main.serve_delete_item; rewrite respond_snd;
        unfold main.read_item, main.update_item, main.delete_item;
        match goal with
        | |- context [bind _ ?k db] =>
            destruct (guard_refuses token now db e k Hauth)
              as [db1 [_ [Hi Hrun]]]
        end; rewrite Hrun; simpl; rewrite Hi; exact Huniq.
    + unfold main.serve_create_item. rewrite respond_snd.
      unfold main.create_item.
      match goal with
      | |- context [bind _ ?k db] =>
          destruct (guard_refuses token now db e k Hauth)
            as [db1 [_ [Hi Hrun]]]
      end. rewrite Hrun. simpl. rewrite Hi. exact Huniq.
  - split.
    + destruct method as [|upd now_upd|]; simpl;
        unfold main.serve_read_item, main.serve_update_item,
          main.serve_delete_item; rewrite respond_snd.
      * destruct (read_item_run token now item_id db cu Hauth)
          as [db1 [_ [Hi Hrun]]]. rewrite Hrun.
        destruct (fits_int64 item_id);
          [|simpl; rewrite Hi; exact Huniq].
        destruct (find (by_item_id item_id) (items db)) as [it|];
          [destruct (InventoryItem.owner_id it =? User.id cu)|];
          simpl; rewrite Hi; exact Huniq.
      * destruct (update_item_run token now item_id upd now_upd db cu Hauth)
          as [db1 [_ [Hi Hrun]]]. rewrite Hrun.
        destruct (fits_int64 item_id);
          [|simpl; rewrite Hi; exact Huniq].
        destruct (find (by_item_id item_id) (items db)) as [it|];
          [destruct (InventoryItem.owner_id it =? User.id cu)|];
          try (simpl; rewrite Hi; exact Huniq).
        rewrite update_item_store.
        destruct (negb (crud.update_binds upd));
          [simpl; rewrite Hi; exact Huniq|].
        destruct (crud.apply_update it upd now_upd); simpl;
          [rewrite replace_row_ids|]; rewrite Hi; exact Huniq.
      * destruct (delete_item_run token now item_id db cu Hauth)
          as [db1 [_ [Hi Hrun]]]. rewrite Hrun.
        destruct (fits_int64 item_id);
          [|simpl; rewrite Hi; exact Huniq].
        destruct (find (by_item_id item_id) (items db)) as [it|];
          [destruct (InventoryItem.owner_id it =? User.id cu)|];
          try (simpl; rewrite Hi; exact Huniq).
        simpl. apply remove_row_NoDup. exact Huniq.
    + unfold main.serve_create_item. rewrite respond_snd.
      destruct (create_item_run item token now now_created db cu Hauth)
        as [db1 [_ [Hi Hrun]]]. rewrite Hrun. cbv zeta.
      destruct (fits_int64 (schemas.InventoryItemCreate.quantity item));
        simpl; [|rewrite Hi; exact Huniq].
      rewrite map_app. simpl. apply NoDup_snoc; [exact Huniq|].
      apply next_id_fresh.
Qed.

(** X7. With pairwise distinct primary keys, a successful delete removes
    the key from the store it leaves: on that store the lookup of the key
    finds nothing, a read, update or delete of the key by any resolved
    principal is answered 404, and the lookups of all other keys are what
    they were.  (A later creation may hand the key out again, see X21.) *)
Theorem delete_item_then_gone
        (token : jwt.Token) (now : datetime) (item_id : Z) (db : Session)
        (Huniq : items_unique db)
        (Hdeleted : fst (main.delete_item token now item_id db) = inr true) :
  let db' := snd (main.delete_item token now item_id db) in
  find (by_item_id item_id) (items db') = None
  /\ (forall j, j <> item_id ->
                find (by_item_id j) (items db') = find (by_item_id j) (items db))
  /\ (forall method token2 now2 principal,
         fst (auth.get_current_user token2 now2 db) = inr principal ->
         fst (main.api_items_item_id method token2 now2 item_id db')
         = main.JSONResponse 404 (main.Detail "Item not found")).
Proof.
  intros db'.
  assert (Hitems : (items db' = crud.remove_row item_id (items db)
                    /\ users db' = users db)
                   /\ fits_int64 item_id = true).
  { subst db'.
    destruct (fst (auth.get_current_user token now db)) as [e|cu] eqn:Hauth.
    - unfold main.delete_item in Hdeleted.
      match type of Hdeleted with
      | context [bind _ ?k db] =>
          destruct (guard_refuses token now db e k Hauth)
            as [db1 [_ [_ Hrun]]]
      end. rewrite Hrun in Hdeleted. discriminate.
    - destruct (delete_item_run token now item_id db cu Hauth)
        as [db1 [_ [_ Hrun]]]. rewrite Hrun in Hdeleted |- *.
      destruct (fits_int64 item_id); [|discriminate].
      destruct (find (by_item_id item_id) (items db)) as [it|];
        [destruct (InventoryItem.owner_id it =? User.id cu)|];
        try discriminate. repeat split; reflexivity. }
  destruct Hitems as [[Hitems Husers] Hrange].
  assert (Hgone : find (by_item_id item_id) (items db') = None).
  { rewrite Hitems. apply remove_row_gone. exact Huniq. }
  split; [exact Hgone|]. split.
  - intros j Hj. rewrite Hitems. apply remove_row_other. exact Hj.
  - intros method token2 now2 principal Hp.
    assert (Hp' : fst (auth.get_current_user token2 now2 db')
                  = inr principal).
    { rewrite <- Hp. apply resolve_users_only. exact Husers. }
    clearbody db'.
    destruct method as [|upd now_upd|]; simpl.
    + destruct (read_item_run token2 now2 item_id db' principal Hp')
        as [db2 [_ [_ Hrun]]]. rewrite Hrange, Hgone in Hrun.
      unfold main.serve_read_item, main.respond. rewrite Hrun. reflexivity.
    + destruct (update_item_run token2 now2 item_id upd now_upd db'
                  principal Hp') as [db2 [_ [_ Hrun]]].
      rewrite Hrange, Hgone in Hrun.
      unfold main.serve_update_item, main.respond. rewrite Hrun. reflexivity.
    + destruct (delete_item_run token2 now2 item_id db' principal Hp')
        as [db2 [_ [_ Hrun]]]. rewrite Hrange, Hgone in Hrun.
      unfold main.serve_delete_item, main.respond. rewrite Hrun. reflexivity.
Qed.

(** X8. A successful update returns a row with the key, the owner and the
    creation date of the stored one and with [date_updated] set to the
    time of the update; that row is what the key looks up afterwards, the
    lookups of all other keys and the [users] table are unchanged. *)
Theorem update_item_then_lookup
        (token : jwt.Token) (now : datetime) (item_id : Z)
        (item : schemas.InventoryItemUpdate) (now_upd : datetime)
        (db : Session) (row : InventoryItem.t)
        (Hupdated : fst (main.update_item token now item_id item now_upd db)
                    = inr row) :
  let db' := snd (main.update_item token now item_id item now_upd db) in
  (exists old,
      find (by_item_id item_id) (items db) = Some old
      /\ InventoryItem.owner_id row = InventoryItem.owner_id old
      /\ InventoryItem.date_created row = InventoryItem.date_created old)
  /\ InventoryItem.id row = item_id
  /\ InventoryItem.date_updated row = Some now_upd
  /\ find (by_item_id item_id) (items db') = Some row
  /\ (forall j, j <> item_id ->
                find (by_item_id j) (items db') = find (by_item_id j) (items db))
  /\ users db' = users db.
Proof.
  intros db'. subst db'.
  destruct (fst (auth.get_current_user token now db)) as [e|cu] eqn:Hauth.
  { unfold main.update_item in Hupdated.
    match type of Hupdated with
    | context [bind _ ?k db] =>
        destruct (guard_refuses token now db e k Hauth) as [db1 [_ [_ Hrun]]]
    end. rewrite Hrun in Hupdated. discriminate. }
  destruct (update_item_run token now item_id item now_upd db cu Hauth)
    as [db1 [Hu [Hi Hrun]]]. rewrite Hrun in Hupdated |- *.
  destruct (fits_int64 item_id); [|discriminate].
  destruct (find (by_item_id item_id) (items db)) as [old|] eqn:Hfind;
    [|discriminate].
  destruct (InventoryItem.owner_id old =? User.id cu); [|discriminate].
  rewrite update_item_store in Hupdated |- *.
  destruct (negb (crud.update_binds item)); [discriminate|].
  destruct (crud.apply_update old item now_upd) as [row'|] eqn:Happly;
    [|discriminate].
  simpl in Hupdated. injection Hupdated as ->.
  destruct (apply_update_keeps _ _ _ _ Happly) as [Hid [Hown [Hcre Hupd]]].
  assert (Hold : InventoryItem.id old = item_id).
  { apply find_some in Hfind. apply Z.eqb_eq. exact (proj2 Hfind). }
  assert (Hrow : InventoryItem.id row = item_id) by congruence.
  simpl. rewrite Hi.
  split; [exists old; auto|]. split; [exact Hrow|]. split; [exact Hupd|].
  split; [|split].
  - rewrite <- Hrow. apply (replace_row_found row old).
    rewrite Hrow. exact Hfind.
  - intros j Hj. apply replace_row_other. congruence.
  - exact Hu.
Qed.

(** X9. An update by the owner that sends [null] for the name, the
    quantity or the price is answered 500 and changes neither table. *)
Theorem update_item_null_column
        (token : jwt.Token) (now : datetime) (item_id : Z)
        (item : schemas.InventoryItemUpdate) (now_upd : datetime)
        (db : Session) (owner : User.t) (it : InventoryItem.t)
        (Hauth : fst (auth.get_current_user token now db) = inr owner)
        (Hfind : find (by_item_id item_id) (items db) = Some it)
        (Hown : InventoryItem.owner_id it = User.id owner)
        (Hnull : schemas.name item = Some None
                 \/ schemas.quantity item = Some None
                 \/ schemas.price item = Some None) :
  let out := main.serve_update_item token now item_id item now_upd db in
  main.status_code (fst out) = 500
  /\ items (snd out) = items db
  /\ users (snd out) = users db.
Proof.
  intros out. subst out.
  destruct (update_item_run token now item_id item now_upd db owner Hauth)
    as [db1 [Hu [Hi Hrun]]].
  unfold main.serve_update_item, main.respond. rewrite Hrun.
  destruct (fits_int64 item_id); [|simpl; auto].
  rewrite Hfind. apply Z.eqb_eq in Hown. rewrite Hown.
  rewrite update_item_store.
  destruct (negb (crud.update_binds item)); [simpl; auto|].
  assert (Hnone : crud.apply_update it item now_upd = None).
  { unfold crud.apply_update.
    destruct Hnull as [H|[H|H]]; rewrite H;
      repeat match goal with
             | |- context [match ?x with _ => _ end] =>
                 lazymatch x with
                 | schemas.name item => destruct x as [[?|]|]
                 | schemas.quantity item => destruct x as [[?|]|]
                 | schemas.price item => destruct x as [[?|]|]
                 end
             end; reflexivity. }
  rewrite Hnone. simpl. auto.
Qed.

Lemma In_firstn {A} (n : nat) (l : list A) (x : A) :
  In x (firstn n l) -> In x l.
Proof.
  intros H. rewrite <- (firstn_skipn n l). apply in_or_app. left. exact H.
Qed.

Lemma In_skipn {A} (n : nat) (l : list A) (x : A) :
  In x (skipn n l) -> In x l.
Proof.
  intros H. rewrite <- (firstn_skipn n l). apply in_or_app. right. exact H.
Qed.

Lemma firstn_plus {A} (a b : nat) (l : list A) :
  firstn (a + b) l = (firstn a l ++ firstn b (skipn a l))%list.
Proof.
  revert l. induction a as [|a IH]; intros l; simpl; [reflexivity|].
  destruct l as [|x l]; simpl.
  - rewrite firstn_nil. reflexivity.
  - rewrite IH. reflexivity.
Qed.

Lemma fits_int64_iff (z : Z) :
  fits_int64 z = true <-> - 9223372036854775808 <= z < 9223372036854775808.
Proof.
  unfold fits_int64.
  change (2 ^ 63) with 9223372036854775808.
  rewrite andb_true_iff, Z.leb_le, Z.ltb_lt. reflexivity.
Qed.

(** X10. For [skip] and [limit] in the 64-bit range of the store, the
    handler of the listing returns to a resolved principal only rows of
    the table that this principal owns, at most [limit] of them when
    [limit] is not negative, and changes neither table. *)
Theorem read_items_only_own
        (skip limit : Z) (token : jwt.Token) (now : datetime) (db : Session)
        (principal : User.t)
        (Hauth : fst (auth.get_current_user token now db) = inr principal)
        (Hskip : fits_int64 skip = true)
        (Hlimit : fits_int64 limit = true) :
  exists rows,
    fst (main.read_items skip limit token now db) = inr rows
    /\ (forall i, In i rows ->
                  In i (items db)
                  /\ InventoryItem.owner_id i = User.id principal)
    /\ (0 <= limit -> Z.of_nat (List.length rows) <= limit)
    /\ items (snd (main.read_items skip limit token now db)) = items db
    /\ users (snd (main.read_items skip limit token now db)) = users db.
Proof.
  destruct (read_items_run skip limit token now db principal Hauth)
    as [db1 [Hu [Hi Hrun]]].
  rewrite Hskip, Hlimit in Hrun. simpl andb in Hrun. cbv iota in Hrun.
  rewrite Hrun. eexists. split; [reflexivity|]. simpl.
  split; [|split; [|split; assumption]].
  - intros i Hin.
    assert (Hown : In i (owned_by (User.id principal) (items db))).
    { unfold crud.sql_limit in Hin.
      destruct (limit <? 0); [|apply In_firstn in Hin];
        apply In_skipn in Hin; exact Hin. }
    unfold owned_by in Hown. apply filter_In in Hown.
    destruct Hown as [Hrow Hown]. split; [exact Hrow|].
    apply Z.eqb_eq. exact Hown.
  - intros Hl. unfold crud.sql_limit.
    destruct (Z.ltb_spec limit 0); [lia|].
    pose proof (firstn_le_length (Z.to_nat limit)
                  (crud.sql_offset skip
                     (owned_by (User.id principal) (items db)))).
    lia.
Qed.

(** X11. Consecutive pages of a listing concatenate: for non-negative
    [skip], [l1] and [l2] whose sum is in the 64-bit range of the store,
    the page of [l1 + l2] rows at [skip] is the page of [l1] rows at
    [skip] followed by the page of [l2] rows at [skip + l1]. *)
Theorem read_items_pages_concatenate
        (skip l1 l2 : Z) (token : jwt.Token) (now : datetime) (db : Session)
        (principal : User.t)
        (Hauth : fst (auth.get_current_user token now db) = inr principal)
        (Hskip : 0 <= skip) (H1 : 0 <= l1) (H2 : 0 <= l2)
        (Hfit : fits_int64 (skip + l1 + l2) = true) :
  exists page1 page2,
    fst (main.read_items skip l1 token now db) = inr page1
    /\ fst (main.read_items (skip + l1) l2 token now db) = inr page2
    /\ fst (main.read_items skip (l1 + l2) token now db)
       = inr (page1 ++ page2)%list.
Proof.
  destruct (read_items_run skip l1 token now db principal Hauth)
    as [d1 [_ [_ R1]]].
  destruct (read_items_run (skip + l1) l2 token now db principal Hauth)
    as [d2 [_ [_ R2]]].
  destruct (read_items_run skip (l1 + l2) token now db principal Hauth)
    as [d3 [_ [_ R3]]].
  apply fits_int64_iff in Hfit.
  assert (F : forall z, 0 <= z <= skip + l1 + l2 -> fits_int64 z = true)
    by (intros z Hz; apply fits_int64_iff; lia).
  rewrite (F skip), (F l1) in R1 by lia.
  rewrite (F (skip + l1)), (F l2) in R2 by lia.
  rewrite (F skip), (F (l1 + l2)) in R3 by lia.
  simpl andb in R1, R2, R3. cbv iota in R1, R2, R3.
  rewrite R1, R2, R3. do 2 eexists.
  split; [reflexivity|]. split; [reflexivity|]. simpl. f_equal.
  unfold crud.sql_limit, crud.sql_offset.
  destruct (Z.ltb_spec l1 0); [lia|].
  destruct (Z.ltb_spec l2 0); [lia|].
  destruct (Z.ltb_spec (l1 + l2) 0); [lia|].
  rewrite !Z2Nat.inj_add by assumption.
  rewrite firstn_plus, skipn_skipn.
  rewrite (Nat.add_comm (Z.to_nat l1) (Z.to_nat skip)). reflexivity.
Qed.

(** X12. A request on the item routes never changes what another
    principal owns: for every [other] that is not the principal the token
    resolves to, the rows owned by [other] are the same before and after a
    read, an update, a delete or a creation, whatever their outcome. *)
Theorem other_principals_rows_unchanged
        (method : main.Method) (token : jwt.Token) (now : datetime)
        (item_id : Z) (item : schemas.InventoryItemCreate.t)
        (now_created : datetime) (db : Session) (other : Z)
        (Hother : forall actor,
            fst (auth.get_current_user token now db) = inr actor ->
            User.id actor <> other) :
  owned_by other
           (items (snd (main.api_items_item_id method token now item_id db)))
  = owned_by other (items db)
  /\ owned_by other
              (items (snd (main.serve_create_item item token now now_created
                                                  db)))
     = owned_by other (items db).
Proof.
  destruct (fst (auth.get_current_user token now db)) as [e|actor] eqn:Hauth.
  - split.
    + destruct method as [|upd now_upd|]; simpl;
        unfold main.serve_read_item, main.serve_update_item,
          main.serve_delete_item; rewrite respond_snd;
        unfold main.read_item, main.update_item, main.delete_item;
        match goal with
        | |- context [bind _ ?k db] =>
            destruct (guard_refuses token now db e k Hauth)
              as [db1 [_ [Hi Hrun]]]
        end; rewrite Hrun; simpl; rewrite Hi; reflexivity.
    + unfold main.serve_create_item. rewrite respond_snd.
      unfold main.create_item.
      match goal with
      | |- context [bind _ ?k db] =>
          destruct (guard_refuses token now db e k Hauth)
            as [db1 [_ [Hi Hrun]]]
      end. rewrite Hrun. simpl. rewrite Hi. reflexivity.
  - specialize (Hother actor eq_refl). split.
    + destruct method as [|upd now_upd|]; simpl;
        unfold main.serve_read_item, main.serve_update_item,
          main.serve_delete_item; rewrite respond_snd.
      * destruct (read_item_run token now item_id db actor Hauth)
          as [db1 [_ [Hi Hrun]]]. rewrite Hrun.
        destruct (fits_int64 item_id); [|simpl; rewrite Hi; reflexivity].
        destruct (find (by_item_id item_id) (items db)) as [it|];
          [destruct (InventoryItem.owner_id it =? User.id actor)|];
          simpl; rewrite Hi; reflexivity.
      * destruct (update_item_run token now item_id upd now_upd db actor Hauth)
          as [db1 [_ [Hi Hrun]]]. rewrite Hrun.
        destruct (fits_int64 item_id); [|simpl; rewrite Hi; reflexivity].
        destruct (find (by_item_id item_id) (items db)) as [it|] eqn:Hfind;
          [destruct (Z.eqb_spec (InventoryItem.owner_id it) (User.id actor))|];
          try (simpl; rewrite Hi; reflexivity).
        rewrite update_item_store.
        destruct (negb (crud.update_binds upd));
          [simpl; rewrite Hi; reflexivity|].
        destruct (crud.apply_update it upd now_upd) as [row|] eqn:Happly;
          simpl; rewrite Hi; [|reflexivity].
        destruct (apply_update_keeps _ _ _ _ Happly) as [Hid [Hown _]].
        assert (Hit : InventoryItem.id it = item_id).
        { apply find_some in Hfind. apply Z.eqb_eq. exact (proj2 Hfind). }
        apply (replace_row_owned row it); [congruence | congruence | congruence].
      * destruct (delete_item_run token now item_id db actor Hauth)
          as [db1 [_ [Hi Hrun]]]. rewrite Hrun.
        destruct (fits_int64 item_id); [|simpl; rewrite Hi; reflexivity].
        destruct (find (by_item_id item_id) (items db)) as [it|] eqn:Hfind;
          [destruct (Z.eqb_spec (InventoryItem.owner_id it) (User.id actor))|];
          try (simpl; rewrite Hi; reflexivity).
        simpl. apply (remove_row_owned item_id other it);
          [exact Hfind | congruence].
    + unfold main.serve_create_item. rewrite respond_snd.
      destruct (create_item_run item token now now_created db actor Hauth)
        as [db1 [_ [Hi Hrun]]]. rewrite Hrun.
      destruct (fits_int64 (schemas.InventoryItemCreate.quantity item));
        simpl; [|rewrite Hi; reflexivity].
      unfold owned_by. rewrite filter_app. simpl.
      apply Z.eqb_neq in Hother. rewrite Hother. apply app_nil_r.
Qed.

Lemma remove_row_snoc (rows : list InventoryItem.t) (row : InventoryItem.t) :
  ~ In (InventoryItem.id row) (map InventoryItem.id rows) ->
  crud.remove_row (InventoryItem.id row) (rows ++ [row]) = rows.
Proof.
  induction rows as [|r rows IH]; simpl; intros Hnotin.
  - rewrite Z.eqb_refl. reflexivity.
  - destruct (Z.eqb_spec (InventoryItem.id r) (InventoryItem.id row)) as [E|_].
    + exfalso. apply Hnotin. left. exact E.
    + f_equal. apply IH. intros Hin. apply Hnotin. right. exact Hin.
Qed.

(** The store a creation leaves, whatever becomes of its response. *)
Lemma create_item_store (item : schemas.InventoryItemCreate.t)
      (token : jwt.Token) (now now_created : datetime) (db : Session)
      (creator : User.t) :
  fst (auth.get_current_user token now db) = inr creator ->
  fits_int64 (schemas.InventoryItemCreate.quantity item) = true ->
  let row :=
    InventoryItem.mk (crud.next_id (map InventoryItem.id (items db)))
                     (schemas.InventoryItemCreate.name item)
                     (schemas.InventoryItemCreate.description item)
                     (schemas.InventoryItemCreate.quantity item)
                     (schemas.InventoryItemCreate.price item)
                     now_created None (User.id creator) in
  fst (main.create_item item token now now_created db) = inr row
  /\ items (snd (main.serve_create_item item token now now_created db))
     = (items db ++ [row])%list
  /\ users (snd (main.serve_create_item item token now now_created db))
     = users db.
Proof.
  intros Hauth Hquantity row.
  destruct (create_item_run item token now now_created db creator Hauth)
    as [db1 [Hu [_ Hrun]]].
  cbv zeta in Hrun. rewrite Hquantity in Hrun. fold row in Hrun.
  unfold main.serve_create_item. rewrite respond_snd, Hrun.
  split; [reflexivity|]. split; [reflexivity | exact Hu].
Qed.

(** The store a delete by the owner leaves. *)
Lemma delete_item_store (token : jwt.Token) (now : datetime) (item_id : Z)
      (db : Session) (owner : User.t) (it : InventoryItem.t) :
  fst (auth.get_current_user token now db) = inr owner ->
  fits_int64 item_id = true ->
  find (by_item_id item_id) (items db) = Some it ->
  InventoryItem.owner_id it = User.id owner ->
  let out := main.api_items_item_id main.DELETE token now item_id db in
  fst out = main.JSONResponse 204 (main.OkOut true)
  /\ items (snd out) = crud.remove_row item_id (items db)
  /\ users (snd out) = users db.
Proof.
  intros Hauth Hfit Hfind Hown out. subst out.
  destruct (delete_item_run token now item_id db owner Hauth)
    as [db1 [_ [_ Hrun]]].
  rewrite Hfit, Hfind, Hown, Z.eqb_refl in Hrun.
  unfold main.api_items_item_id, main.serve_delete_item, main.respond.
  rewrite Hrun. repeat split; reflexivity.
Qed.

(** The answer to a read of a stored row by its owner. *)
Lemma read_item_of_owner (token : jwt.Token) (now : datetime) (item_id : Z)
      (db : Session) (owner : User.t) (it : InventoryItem.t) :
  fst (auth.get_current_user token now db) = inr owner ->
  fits_int64 item_id = true ->
  find (by_item_id item_id) (items db) = Some it ->
  InventoryItem.owner_id it = User.id owner ->
  PrimFloat.is_finite (InventoryItem.price it) = true ->
  fst (main.serve_read_item token now item_id db)
  = main.JSONResponse 200 (main.ItemOut it).
Proof.
  intros Hauth Hfit Hfind Hown Hfinite.
  destruct (read_item_run token now item_id db owner Hauth)
    as [db1 [_ [_ Hrun]]].
  rewrite Hfit, Hfind, Hown, Z.eqb_refl in Hrun.
  unfold main.serve_read_item. apply respond_ok.
  - rewrite Hrun. reflexivity.
  - exact Hfinite.
Qed.

Lemma find_new_row (rows : list InventoryItem.t) (row : InventoryItem.t) :
  InventoryItem.id row = crud.next_id (map InventoryItem.id rows) ->
  find (by_item_id (InventoryItem.id row)) (rows ++ [row]) = Some row.
Proof.
  intros Hid. rewrite find_snoc.
  rewrite find_by_item_id_none by (rewrite Hid; apply next_id_fresh).
  unfold by_item_id. rewrite Z.eqb_refl. reflexivity.
Qed.

(** X21. The store hands a deleted key out again: when a principal
    creates an item, deletes it, and creates another one, the second row
    gets the primary key the first one had, and a read of that key then
    returns the second row.  (Quantities in the 64-bit range of the
    store, the key in that range, a finite price for the second item;
    [now1], [now2], [now3] are the times of the three requests, [t1] and
    [t3] the creation stamps.) *)
Theorem deleted_key_handed_out_again
        (item1 item2 : schemas.InventoryItemCreate.t) (token : jwt.Token)
        (now1 now2 now3 t1 t3 : datetime) (db : Session) (principal : User.t)
        (Hauth1 : fst (auth.get_current_user token now1 db) = inr principal)
        (Hauth2 : fst (auth.get_current_user token now2 db) = inr principal)
        (Hauth3 : fst (auth.get_current_user token now3 db) = inr principal)
        (Hquantity1 :
           fits_int64 (schemas.InventoryItemCreate.quantity item1) = true)
        (Hquantity2 :
           fits_int64 (schemas.InventoryItemCreate.quantity item2) = true)
        (Hprice2 :
           PrimFloat.is_finite (schemas.InventoryItemCreate.price item2) = true)
        (Hkey : fits_int64 (crud.next_id (map InventoryItem.id (items db)))
                = true) :
  let key := crud.next_id (map InventoryItem.id (items db)) in
  let row1 :=
    InventoryItem.mk key
                     (schemas.InventoryItemCreate.name item1)
                     (schemas.InventoryItemCreate.description item1)
                     (schemas.InventoryItemCreate.quantity item1)
                     (schemas.InventoryItemCreate.price item1)
                     t1 None (User.id principal) in
  let row2 :=
    InventoryItem.mk key
                     (schemas.InventoryItemCreate.name item2)
                     (schemas.InventoryItemCreate.description item2)
                     (schemas.InventoryItemCreate.quantity item2)
                     (schemas.InventoryItemCreate.price item2)
                     t3 None (User.id principal) in
  let created := main.serve_create_item item1 token now1 t1 db in
  let deleted := main.api_items_item_id main.DELETE token now2 key
                                        (snd created) in
  let recreated := main.serve_create_item item2 token now3 t3 (snd deleted) in
  find (by_item_id key) (items (snd created)) = Some row1
  /\ fst deleted = main.JSONResponse 204 (main.OkOut true)
  /\ fst recreated = main.JSONResponse 201 (main.ItemOut row2)
  /\ fst (main.serve_read_item token now3 key (snd recreated))
     = main.JSONResponse 200 (main.ItemOut row2).
Proof.
  intros key row1 row2 created deleted recreated.
  destruct (create_item_store item1 token now1 t1 db principal
              Hauth1 Hquantity1) as [_ [Hi1 Hu1]].
  fold key in Hi1. fold row1 in Hi1. fold created in Hi1, Hu1.
  assert (Hfind1 : find (by_item_id key) (items (snd created)) = Some row1).
  { rewrite Hi1. apply (find_new_row (items db) row1). reflexivity. }
  assert (Hauth2' : fst (auth.get_current_user token now2 (snd created))
                    = inr principal).
  { rewrite <- Hauth2. apply resolve_users_only. exact Hu1. }
  destruct (delete_item_store token now2 key (snd created) principal row1
              Hauth2' Hkey Hfind1 eq_refl) as [Hresp2 [Hi2 Hu2]].
  fold deleted in Hresp2, Hi2, Hu2.
  assert (Hitems2 : items (snd deleted) = items db).
  { rewrite Hi2, Hi1. apply (remove_row_snoc (items db) row1).
    apply next_id_fresh. }
  assert (Hauth3' : fst (auth.get_current_user token now3 (snd deleted))
                    = inr principal).
  { rewrite <- Hauth3. apply resolve_users_only. congruence. }
  destruct (create_item_store item2 token now3 t3 (snd deleted) principal
              Hauth3' Hquantity2) as [Hrun3 [Hi3 Hu3]].
  rewrite Hitems2 in Hrun3, Hi3.
  fold key in Hrun3, Hi3. fold row2 in Hrun3, Hi3.
  fold recreated in Hi3, Hu3.
  split; [exact Hfind1|]. split; [exact Hresp2|]. split.
  - unfold recreated, main.serve_create_item. apply respond_ok.
    + exact Hrun3.
    + exact Hprice2.
  - apply (read_item_of_owner token now3 key (snd recreated) principal row2).
    + rewrite <- Hauth3. apply resolve_users_only. congruence.
    + exact Hkey.
    + rewrite Hi3. apply (find_new_row (items db) row2). reflexivity.
    + reflexivity.
    + exact Hprice2.
Qed.

(** X22. Integers are not checked against the 64-bit range of the store
    before they reach it.  For a resolved principal, a read, update or
    delete of an [item_id] outside that range is answered by
    [global_exception_handler] (500, "Internal server error"), a creation
    with a quantity outside it is answered with status 500, and both
    leave the two tables as they were; a listing with [skip] or [limit]
    outside the range raises the driver's [OverflowError], which the
    handler does not catch. *)
Theorem integers_beyond_int64_answered_500
        (token : jwt.Token) (now : datetime) (db : Session)
        (principal : User.t)
        (Hauth : fst (auth.get_current_user token now db) = inr principal) :
  (forall method item_id,
      fits_int64 item_id = false ->
      let out := main.api_items_item_id method token now item_id db in
      fst out = main.JSONResponse 500 (main.Detail "Internal server error")
      /\ items (snd out) = items db /\ users (snd out) = users db)
  /\ (forall item now_created,
         fits_int64 (schemas.InventoryItemCreate.quantity item) = false ->
         let out := main.serve_create_item item token now now_created db in
         main.status_code (fst out) = 500
         /\ items (snd out) = items db /\ users (snd out) = users db)
  /\ (forall skip limit,
         fits_int64 skip && fits_int64 limit = false ->
         fst (main.read_items skip limit token now db) = inl OverflowError).
Proof.
  split; [|split].
  - intros method item_id Hrange out. subst out.
    destruct method as [|upd now_upd|]; simpl;
      unfold main.serve_read_item, main.serve_update_item,
        main.serve_delete_item, main.respond.
    + destruct (read_item_run token now item_id db principal Hauth)
        as [db1 [Hu [Hi Hrun]]].
      rewrite Hrun, Hrange. repeat split; assumption.
    + destruct (update_item_run token now item_id upd now_upd db principal
                  Hauth) as [db1 [Hu [Hi Hrun]]].
      rewrite Hrun, Hrange. repeat split; assumption.
    + destruct (delete_item_run token now item_id db principal Hauth)
        as [db1 [Hu [Hi Hrun]]].
      rewrite Hrun, Hrange. repeat split; assumption.
  - intros item now_created Hquantity out. subst out.
    destruct (create_item_run item token now now_created db principal Hauth)
      as [db1 [Hu [Hi Hrun]]].
    cbv zeta in Hrun. rewrite Hquantity in Hrun.
    unfold main.serve_create_item, main.respond. rewrite Hrun.
    repeat split; assumption.
  - intros skip limit Hrange.
    destruct (read_items_run skip limit token now db principal Hauth)
      as [db1 [_ [_ Hrun]]].
    rewrite Hrun, Hrange. reflexivity.
Qed.

End ItemProperties.

Lemma sample_alice_resolves :
  fst (auth.get_current_user (signer := sample.signer)
         sample.alice_token (minutes 29) sample.db)
  = inr sample.alice.
Proof. vm_compute. reflexivity. Qed.

Lemma sample_bob_resolves :
  fst (auth.get_current_user (signer := sample.signer)
         sample.bob_token (minutes 29) sample.db)
  = inr sample.bob.
Proof. vm_compute. reflexivity. Qed.

Lemma sample_items_unique : items_unique sample.db.
Proof.
  unfold items_unique. simpl. repeat constructor; simpl; intuition discriminate.
Qed.

Lemma create_item_then_read_witness :
  let out := main.serve_create_item (signer := sample.signer) sample.chair
               sample.alice_token (minutes 29) 5 sample.db in
  fst out = main.JSONResponse 201 (main.ItemOut sample.chair_row)
  /\ fst (main.serve_read_item (signer := sample.signer) sample.bob_token
            (minutes 29) 3 (snd out))
     = main.JSONResponse 403 (main.Detail "Not enough permissions").
Proof.
  pose proof (create_item_then_read (signer := sample.signer) sample.chair
                sample.alice_token (minutes 29) 5 sample.db sample.alice
                sample_alice_resolves eq_refl eq_refl eq_refl) as H.
  split.
  - exact (proj1 H).
  - exact (proj2 (proj2 (proj2 (proj2 H)))
             sample.bob_token (minutes 29) sample.bob sample_bob_resolves).
Defined.

Lemma item_routes_keep_ids_unique_witness :
  items_unique (snd (main.api_items_item_id (signer := sample.signer)
                       main.DELETE sample.alice_token (minutes 29) 1
                       sample.db))
  /\ items_unique (snd (main.serve_create_item (signer := sample.signer)
                          sample.chair sample.alice_token (minutes 29) 5
                          sample.db)).
Proof.
  exact (item_routes_keep_ids_unique (signer := sample.signer) main.DELETE
           sample.alice_token (minutes 29) 1 sample.chair 5 sample.db
           sample_items_unique).
Defined.

Lemma delete_item_then_gone_witness :
  let db' := snd (main.delete_item (signer := sample.signer)
                    sample.alice_token (minutes 29) 1 sample.db) in
  find (by_item_id 1) (items db') = None
  /\ fst (main.api_items_item_id (signer := sample.signer) main.GET
            sample.alice_token (minutes 29) 1 db')
     = main.JSONResponse 404 (main.Detail "Item not found").
Proof.
  pose proof (delete_item_then_gone (signer := sample.signer)
                sample.alice_token (minutes 29) 1 sample.db
                sample_items_unique eq_refl) as H.
  split.
  - exact (proj1 H).
  - exact (proj2 (proj2 H) main.GET sample.alice_token (minutes 29)
             sample.alice sample_alice_resolves).
Defined.

Lemma update_item_then_lookup_witness :
  let row := InventoryItem.mk 1 "Laptop" None 7 999.5%float 0 (Some 42) 1 in
  find (by_item_id 1)
       (items (snd (main.update_item (signer := sample.signer)
                      sample.alice_token (minutes 29) 1 sample.restock 42
                      sample.db)))
  = Some row.
Proof.
  intros row.
  exact (proj1 (proj2 (proj2 (proj2
           (update_item_then_lookup (signer := sample.signer)
              sample.alice_token (minutes 29) 1 sample.restock 42 sample.db
              row eq_refl))))).
Defined.

Lemma update_item_null_column_witness :
  let out := main.serve_update_item (signer := sample.signer)
               sample.alice_token (minutes 29) 1 sample.unname 42 sample.db in
  main.status_code (fst out) = 500 /\ items (snd out) = items sample.db.
Proof.
  pose proof (update_item_null_column (signer := sample.signer)
                sample.alice_token (minutes 29) 1 sample.unname 42 sample.db
                sample.alice sample.laptop sample_alice_resolves
                eq_refl eq_refl (or_introl eq_refl)) as H.
  split; [exact (proj1 H) | exact (proj1 (proj2 H))].
Defined.

Lemma read_items_only_own_witness :
  exists rows,
    fst (main.read_items (signer := sample.signer) 0 100 sample.alice_token
           (minutes 29) sample.db) = inr rows
    /\ forall i, In i rows -> InventoryItem.owner_id i = 1.
Proof.
  destruct (read_items_only_own (signer := sample.signer) 0 100
              sample.alice_token (minutes 29) sample.db sample.alice
              sample_alice_resolves eq_refl eq_refl)
    as [rows [Hrows [Hown _]]].
  exists rows. split; [exact Hrows|].
  intros i Hi. exact (proj2 (Hown i Hi)).
Defined.

Lemma read_items_pages_concatenate_witness :
  exists page1 page2,
    fst (main.read_items (signer := sample.signer) 0 1 sample.alice_token
           (minutes 29) sample.db) = inr page1
    /\ fst (main.read_items (signer := sample.signer) (0 + 1) 1
              sample.alice_token (minutes 29) sample.db) = inr page2
    /\ fst (main.read_items (signer := sample.signer) 0 (1 + 1)
              sample.alice_token (minutes 29) sample.db)
       = inr (page1 ++ page2)%list.
Proof.
  apply (read_items_pages_concatenate (signer := sample.signer) 0 1 1
           sample.alice_token (minutes 29) sample.db sample.alice
           sample_alice_resolves); solve [lia | reflexivity].
Defined.

Lemma other_principals_rows_unchanged_witness :
  owned_by 2 (items (snd (main.api_items_item_id (signer := sample.signer)
                            main.DELETE sample.alice_token (minutes 29) 1
                            sample.db)))
  = [sample.desk].
Proof.
  refine (proj1 (other_principals_rows_unchanged (signer := sample.signer)
                   main.DELETE sample.alice_token (minutes 29) 1 sample.chair
                   5 sample.db 2 _)).
  intros actor Hactor. rewrite sample_alice_resolves in Hactor.
  injection Hactor as <-. discriminate.
Defined.

Lemma deleted_key_handed_out_again_witness :
  let created := main.serve_create_item (signer := sample.signer)
                   sample.chair sample.alice_token (minutes 29) 5 sample.db in
  let deleted := main.api_items_item_id (signer := sample.signer) main.DELETE
                   sample.alice_token (minutes 29) 3 (snd created) in
  let recreated := main.serve_create_item (signer := sample.signer)
                     sample.chair sample.alice_token (minutes 29) 5
                     (snd deleted) in
  fst deleted = main.JSONResponse 204 (main.OkOut true)
  /\ fst recreated = main.JSONResponse 201 (main.ItemOut sample.chair_row).
Proof.
  pose proof (deleted_key_handed_out_again (signer := sample.signer)
                sample.chair sample.chair sample.alice_token
                (minutes 29) (minutes 29) (minutes 29) 5 5 sample.db
                sample.alice sample_alice_resolves sample_alice_resolves
                sample_alice_resolves eq_refl eq_refl eq_refl eq_refl) as H.
  split.
  - exact (proj1 (proj2 H)).
  - exact (proj1 (proj2 (proj2 H))).
Defined.

Lemma integers_beyond_int64_answered_500_witness :
  fst (main.api_items_item_id (signer := sample.signer) main.DELETE
         sample.alice_token (minutes 29) (- 2 ^ 63 - 1) sample.db)
  = main.JSONResponse 500 (main.Detail "Internal server error")
  /\ fst (main.read_items (signer := sample.signer) (2 ^ 63) 100
            sample.alice_token (minutes 29) sample.db)
     = inl OverflowError.
Proof.
  pose proof (integers_beyond_int64_answered_500 (signer := sample.signer)
                sample.alice_token (minutes 29) sample.db sample.alice
                sample_alice_resolves) as H.
  split.
  - exact (proj1 (proj1 H main.DELETE (- 2 ^ 63 - 1) eq_refl)).
  - exact (proj2 (proj2 H) (2 ^ 63) 100 eq_refl).
Defined.

(** ** Tokens, continued *)

Lemma dict_get_set_same (d : Dict) (k : string) (v : Any) :
  dict_get (dict_set d k v) k = Some v.
Proof.
  induction d as [|[k' v'] d IH]; simpl.
  - rewrite String.eqb_refl. reflexivity.
  - destruct (String.eqb k' k) eqn:Hk; simpl; rewrite Hk;
      [reflexivity | exact IH].
Qed.

Lemma dict_get_set_other (d : Dict) (k k' : string) (v : Any) :
  k <> k' -> dict_get (dict_set d k v) k' = dict_get d k'.
Proof.
  intros Hne. induction d as [|[k0 v0] d IH]; simpl.
  - apply String.eqb_neq in Hne. rewrite Hne. reflexivity.
  - destruct (String.eqb k0 k) eqn:Hk; simpl.
    + apply String.eqb_eq in Hk. subst k0.
      apply String.eqb_neq in Hne. rewrite Hne. reflexivity.
    + destruct (String.eqb k0 k'); [reflexivity | exact IH].
Qed.

Section TokenProperties.
Context {signer : jwt.Signer}.

(** The claims [jwt.encode] signs, looked up by key. *)
Lemma dict_get_encoded (claims : Dict) (k : string) :
  dict_get
    (map (fun kv : string * Any =>
            match kv with
            | (k0, Datetime t) =>
                if jwt.is_time_claim k0 then (k0, Int (timegm t)) else kv
            | _ => kv
            end) claims) k
  = match dict_get claims k with
    | Some (Datetime t) =>
        if jwt.is_time_claim k then Some (Int (timegm t))
        else Some (Datetime t)
    | other => other
    end.
Proof.
  induction claims as [|[k0 v0] claims IH]; simpl; [reflexivity|].
  destruct v0 as [s|z|t]; simpl.
  - destruct (String.eqb k0 k); [reflexivity | exact IH].
  - destruct (String.eqb k0 k); [reflexivity | exact IH].
  - destruct (jwt.is_time_claim k0) eqn:Ht; simpl;
      destruct (String.eqb k0 k) eqn:Hk; try exact IH;
      apply String.eqb_eq in Hk; subst k0; rewrite Ht; reflexivity.
Qed.

(** X13. The token minted for a subject is accepted by [jwt.decode] up to
    and including the second in which it expires and refused as expired
    from the next second on; its lifetime is the [expires_delta] passed,
    and 15 minutes when that is omitted or zero. *)
Theorem token_validity_window
        (username : string) (expires_delta : option timedelta)
        (t0 t_iat now : datetime) :
  let expiry := t0 + effective_delta expires_delta in
  jwt.decode
    (auth.create_access_token [("sub", Str username)] expires_delta t0 t_iat)
    auth.SECRET_KEY [auth.ALGORITHM] now
  = if timegm expiry <? timegm now
    then inl (JWTError "Signature has expired.")
    else inr [("sub", Str username);
              ("exp", Int (timegm expiry));
              ("iat", Int (timegm t_iat))].
Proof.
  intros expiry.
  assert (Htok :
            auth.create_access_token [("sub", Str username)] expires_delta
                                     t0 t_iat
            = jwt.Compact "HS256"
                [("sub", Str username); ("exp", Int (timegm expiry));
                 ("iat", Int (timegm t_iat))]
                (jwt.jws_sign "HS256" auth.SECRET_KEY
                   [("sub", Str username); ("exp", Int (timegm expiry));
                    ("iat", Int (timegm t_iat))])).
  { subst expiry. unfold effective_delta, auth.create_access_token.
    destruct expires_delta as [d|]; [destruct (d =? 0)|]; reflexivity. }
  rewrite Htok. clearbody expiry.
  unfold jwt.decode. simpl existsb. cbv iota. simpl negb at 1. cbv iota.
  rewrite String.eqb_refl. simpl negb. cbv iota.
  unfold jwt.validate_claims, jwt.validate_exp, jwt.validate_rest,
    jwt.claims_error.
  simpl dict_get. cbn [option_map jwt.claim_as_int]. cbv beta iota.
  destruct (timegm expiry <? timegm now); reflexivity.
Qed.

Lemma serialisable_dict_set (d : Dict) (k : string) (v : Any) :
  jwt.serialisable d = true ->
  match v with Datetime _ => jwt.is_time_claim k | _ => true end = true ->
  jwt.serialisable (dict_set d k v) = true.
Proof.
  intros Hd Hv. induction d as [|[k' v'] d IH]; simpl.
  - rewrite andb_true_r. destruct v; exact Hv.
  - simpl in Hd. apply andb_true_iff in Hd. destruct Hd as [Hkv Hd].
    destruct (String.eqb k' k) eqn:Hk; simpl.
    + apply String.eqb_eq in Hk. subst k'. rewrite Hd, andb_true_r.
      destruct v; exact Hv.
    + rewrite Hkv. exact (IH Hd).
Qed.

Lemma encoded_holds_no_datetime (claims : Dict) (k : string) (v : Any) :
  jwt.serialisable claims = true ->
  In (k, v)
     (map (fun kv : string * Any =>
             match kv with
             | (k0, Datetime t) =>
                 if jwt.is_time_claim k0 then (k0, Int (timegm t)) else kv
             | _ => kv
             end) claims) ->
  forall t, v <> Datetime t.
Proof.
  intros Hs Hin t ->. apply in_map_iff in Hin.
  destruct Hin as [[k0 v0] [Heq Hin]].
  unfold jwt.serialisable in Hs. rewrite forallb_forall in Hs.
  specialize (Hs _ Hin). simpl in Hs.
  destruct v0 as [s0|z0|t0]; try discriminate.
  rewrite Hs in Heq. discriminate.
Qed.

(** X14. For every [data] the library can serialise (no [datetime] under
    a key other than [exp], [iat] and [nbf]), the minted token carries the
    algorithm of the module, a signature under its key, integer [exp] and
    [iat] claims computed from the clock, and no [datetime] at all; an
    [exp] or [iat] supplied in [data] is overwritten.  Hence no such token
    resolves once the second of its expiry has passed. *)
Theorem minted_token_always_expires
        (data : Dict) (expires_delta : option timedelta)
        (t0 t_iat now : datetime) (db : Session)
        (Hdata : jwt.serialisable data = true)
        (Hlate : timegm (t0 + effective_delta expires_delta) < timegm now) :
  let tok := auth.create_access_token data expires_delta t0 t_iat in
  (exists claims,
      tok = jwt.Compact "HS256" claims
                        (jwt.jws_sign "HS256" auth.SECRET_KEY claims)
      /\ dict_get claims "exp"
         = Some (Int (timegm (t0 + effective_delta expires_delta)))
      /\ dict_get claims "iat" = Some (Int (timegm t_iat))
      /\ (forall k v, In (k, v) claims -> forall t, v <> Datetime t))
  /\ fst (auth.get_current_user tok now db) = inl auth.credentials_exception.
Proof.
  intros tok.
  assert (Hshape : exists claims,
             tok = jwt.Compact "HS256" claims
                               (jwt.jws_sign "HS256" auth.SECRET_KEY claims)
             /\ dict_get claims "exp"
                = Some (Int (timegm (t0 + effective_delta expires_delta)))
             /\ dict_get claims "iat" = Some (Int (timegm t_iat))
             /\ (forall k v, In (k, v) claims -> forall t, v <> Datetime t)).
  { subst tok. unfold auth.create_access_token, jwt.encode.
    eexists. split; [reflexivity|].
    rewrite !dict_get_encoded. unfold dict_update. simpl fold_left.
    rewrite dict_get_set_same.
    rewrite dict_get_set_other by discriminate.
    rewrite dict_get_set_same. simpl.
    unfold effective_delta.
    assert (Hclean : forall e k v,
               In (k, v)
                  (map (fun kv : string * Any =>
                          match kv with
                          | (k0, Datetime t) =>
                              if jwt.is_time_claim k0
                              then (k0, Int (timegm t)) else kv
                          | _ => kv
                          end)
                       (dict_set (dict_set data "exp" (Datetime e))
                                 "iat" (Datetime t_iat))) ->
               forall t, v <> Datetime t).
    { intros e k v. apply encoded_holds_no_datetime.
      apply serialisable_dict_set; [|reflexivity].
      apply serialisable_dict_set; [exact Hdata | reflexivity]. }
    destruct expires_delta as [d|]; [destruct (d =? 0)|];
      (split; [reflexivity|]; split; [reflexivity|]; apply Hclean). }
  split; [exact Hshape|].
  destruct Hshape as [claims [-> [Hexp _]]].
  exact (expired_token_refused "HS256" claims _ _ now db Hexp Hlate).
Qed.

(** X15. A token whose header names another algorithm than the one of the
    module, or whose signature is not the one the module's key gives its
    claims, is answered 401 by a protected route, whatever its claims say
    and whoever is stored. *)
Theorem forged_token_refused
        (alg : string) (claims : Dict) (signature : string)
        (now : datetime) (db : Session)
        (Hforged : alg <> auth.ALGORITHM
                   \/ signature <> jwt.jws_sign alg auth.SECRET_KEY claims) :
  fst (main.serve_read_users_me (jwt.Compact alg claims signature) now db)
  = main.JSONResponse 401 (main.Detail "Could not validate credentials").
Proof.
  assert (H : fst (auth.get_current_user (jwt.Compact alg claims signature)
                     now db) = inl auth.credentials_exception).
  { rewrite get_current_user_cases. unfold jwt.decode. simpl existsb.
    destruct Hforged as [Halg|Hsig].
    - apply String.eqb_neq in Halg. rewrite Halg. reflexivity.
    - destruct (negb (String.eqb alg auth.ALGORITHM || false));
        [reflexivity|].
      apply String.eqb_neq in Hsig. rewrite Hsig. reflexivity. }
  unfold main.serve_read_users_me, main.respond, main.read_users_me,
    auth.get_current_active_user, bind.
  destruct (auth.get_current_user _ now db) as [r db'].
  simpl in H. subst r. reflexivity.
Qed.

End TokenProperties.

Section ReadOnly.
Context {pwd_context : CryptContext} {signer : jwt.Signer}.

(** X16. Logging in and resolving a token only read: whatever the
    credentials or the token and whatever the outcome, both tables are the
    same after [/api/token] and after [/api/users/me] as before. *)
Theorem authentication_is_read_only
        (username password : string) (t t' : datetime)
        (token : jwt.Token) (now : datetime) (db : Session) :
  let logged := snd (main.serve_login_for_access_token username password
                                                        t t' db) in
  let resolved := snd (main.serve_read_users_me token now db) in
  users logged = users db /\ items logged = items db
  /\ users resolved = users db /\ items resolved = items db.
Proof.
  intros logged resolved. subst logged resolved.
  unfold main.serve_login_for_access_token, main.serve_read_users_me.
  rewrite !respond_snd.
  assert (Hlogin : forall r db',
             crud.authenticate_user username password db = (r, db') ->
             users db' = users db /\ items db' = items db).
  { unfold crud.authenticate_user, crud.get_user_by_username,
      crud.get_user_by_email, crud.context_verify, bind, ret, raise.
    simpl. intros r db'.
    destruct (find _ (users db)) as [u|]; simpl.
    - destruct (pwd_verify password (User.hashed_password u)) as [[|]|];
        simpl; intros H; injection H as _ <-; split; reflexivity.
    - destruct (contains_char "@"%char username); simpl.
      + destruct (find _ (users db)) as [u|]; simpl;
          [destruct (pwd_verify password (User.hashed_password u))
            as [[|]|]; simpl|];
          intros H; injection H as _ <-; split; reflexivity.
      + intros H; injection H as _ <-; split; reflexivity. }
  split; [|split].
  - unfold main.login_for_access_token, auth.authenticate_user, bind.
    destruct (crud.authenticate_user username password db) as [r db'] eqn:Ha.
    destruct (Hlogin r db' eq_refl) as [Hu _].
    destruct r as [e|[u|]]; simpl; exact Hu.
  - unfold main.login_for_access_token, auth.authenticate_user, bind.
    destruct (crud.authenticate_user username password db) as [r db'] eqn:Ha.
    destruct (Hlogin r db' eq_refl) as [_ Hi].
    destruct r as [e|[u|]]; simpl; exact Hi.
  - unfold main.read_users_me, auth.get_current_active_user, bind.
    pose proof (get_current_user_frame token now db) as [Hu Hi].
    destruct (auth.get_current_user token now db) as [[e|u] db'];
      simpl in *; auto.
Qed.

End ReadOnly.

(** ** Username validation *)

Lemma strip_final_newline_snoc (body : string) :
  schemas.strip_final_newline (String.append body (String "010"%char ""))
  = body.
Proof.
  induction body as [|c body IH]; [reflexivity|].
  destruct body as [|c' body]; [reflexivity|].
  change (String c (schemas.strip_final_newline
                      (String.append (String c' body) (String "010"%char "")))
          = String c (String c' body)).
  rewrite IH. reflexivity.
Qed.

Lemma strip_final_newline_word (v : string) :
  schemas.forallb_char schemas.word_char v = true ->
  schemas.strip_final_newline v = v.
Proof.
  induction v as [|c v IH]; [reflexivity|].
  simpl. intros H. apply andb_true_iff in H. destruct H as [Hc Hv].
  destruct v as [|c' v].
  - destruct (Ascii.eqb_spec c "010"%char); [subst c; discriminate|].
    reflexivity.
  - rewrite (IH Hv). reflexivity.
Qed.

Lemma word_chars_no_at (v : string) :
  schemas.forallb_char schemas.word_char (schemas.strip_final_newline v)
  = true ->
  contains_char "@"%char v = false.
Proof.
  induction v as [|c v IH]; [reflexivity|].
  simpl. destruct v as [|c' v].
  - destruct (Ascii.eqb_spec c "010"%char) as [->|Hnl]; [reflexivity|].
    simpl. intros H. apply andb_true_iff in H. destruct H as [Hc _].
    destruct (Ascii.eqb_spec c "@"%char) as [->|]; [discriminate|reflexivity].
  - intros H.
    change (schemas.forallb_char schemas.word_char
              (String c (schemas.strip_final_newline (String c' v))) = true)
      in H.
    simpl in H. apply andb_true_iff in H. destruct H as [Hc Hv].
    destruct (Ascii.eqb_spec c "@"%char) as [->|]; [discriminate|].
    apply IH. exact Hv.
Qed.

Section UsernameProperties.
Context {pwd_context : CryptContext}.

(** X17. A username that passes the validation of the registration schema
    contains no ["@"]; a login with such a name that is not stored consults
    the store once, by username, and authenticates nobody. *)
Theorem valid_username_never_looked_up_by_email
        (v password : string) (db : Session)
        (Hvalid : schemas.username_valid v = true)
        (Hunknown : ~ In v (map User.username (users db))) :
  contains_char "@"%char v = false
  /\ crud.authenticate_user v password db
     = (inr None, issue (SelectUserByUsername v) db).
Proof.
  assert (Hat : contains_char "@"%char v = false).
  { unfold schemas.username_valid in Hvalid.
    apply andb_true_iff in Hvalid. destruct Hvalid as [_ Halpha].
    unfold schemas.username_alphanumeric in Halpha. cbv zeta in Halpha.
    apply andb_true_iff in Halpha. destruct Halpha as [_ Hword].
    apply word_chars_no_at. exact Hword. }
  split; [exact Hat|].
  apply find_by_username_none in Hunknown.
  unfold crud.authenticate_user, crud.get_user_by_username, bind, ret.
  fold (by_username v). simpl. rewrite Hunknown, Hat. reflexivity.
Qed.

End UsernameProperties.

(** X18. The pattern of the username validator ends in [$], which also
    matches before a final newline: a name made of 2 to 49 letters, digits
    and underscores followed by a newline is accepted, just as the name
    without the newline would be judged by the pattern. *)
Theorem username_with_final_newline_accepted
        (body : string)
        (Hword : schemas.forallb_char schemas.word_char body = true)
        (Hlen : 2 <= Z.of_nat (String.length body) <= 49) :
  schemas.username_valid (String.append body (String "010"%char "")) = true
  /\ schemas.username_alphanumeric (String.append body (String "010"%char ""))
     = schemas.username_alphanumeric body.
Proof.
  assert (Hlength : forall s t,
             String.length (String.append s t)
             = (String.length s + String.length t)%nat).
  { induction s as [|c s IH]; intros t; simpl; [reflexivity|].
    rewrite IH. reflexivity. }
  assert (Halpha :
            schemas.username_alphanumeric
              (String.append body (String "010"%char ""))
            = schemas.username_alphanumeric body).
  { unfold schemas.username_alphanumeric.
    rewrite strip_final_newline_snoc, (strip_final_newline_word body Hword).
    reflexivity. }
  split; [|exact Halpha].
  unfold schemas.username_valid. rewrite Halpha, Hlength. simpl String.length.
  unfold schemas.username_alphanumeric.
  rewrite (strip_final_newline_word body Hword), Hword.
  destruct body as [|c body]; [simpl in Hlen; lia|].
  simpl negb. rewrite andb_true_r.
  apply andb_true_iff. split; apply Z.leb_le; lia.
Qed.

(** ** The client: authenticated requests *)

Section ClientRequests.
Context {transport : frontend.Transport}.

(** X19. An authenticated request of the client ends in one of four ways.
    Without a stored token nothing is sent.  Otherwise exactly one request
    is sent, bearing the stored token, and: a 401 clears token and
    principal, reports the expiry and restarts the script, with no second
    attempt; any other response is returned with the session untouched; a
    transport failure is reported and the session is untouched. *)
Theorem make_authenticated_request_outcomes
        (method endpoint : string) (st : frontend.SessionState) :
  match frontend.make_authenticated_request method endpoint st with
  | (flow, st', out) =>
      (frontend.truthy_token (frontend.token st) = false
       /\ flow = frontend.Done None /\ st' = st /\ out = [])
      \/ exists tok,
          frontend.token st = Some tok
          /\ ((exists response,
                  frontend.requests_request method endpoint tok = inr response
                  /\ frontend.status_code response = 401
                  /\ flow = frontend.RerunException
                  /\ frontend.token st' = None /\ frontend.user st' = None
                  /\ out = [frontend.Sent method endpoint tok;
                            frontend.st_error
                              "Your session has expired. Please log in again."])
              \/ (exists response,
                     frontend.requests_request method endpoint tok
                     = inr response
                     /\ frontend.status_code response <> 401
                     /\ flow = frontend.Done (Some response)
                     /\ st' = st
                     /\ out = [frontend.Sent method endpoint tok])
              \/ (exists e,
                     frontend.requests_request method endpoint tok = inl e
                     /\ flow = frontend.Done None
                     /\ st' = st
                     /\ out = [frontend.Sent method endpoint tok;
                               frontend.st_error
                                 (String.append "API request failed: " e)]))
  end.
Proof.
  unfold frontend.make_authenticated_request, frontend.ui_bind,
    frontend.get_state, frontend.emit, frontend.put_state, frontend.rerun,
    frontend.ui_ret.
  cbv beta iota.
  destruct (frontend.token st) as [tok|] eqn:Htok; cbv beta iota;
    [|left; repeat split; reflexivity].
  destruct (frontend.truthy_token (Some tok)) eqn:Htruthy;
    cbn [negb]; cbv beta iota;
    [|left; repeat split; reflexivity].
  destruct (frontend.requests_request method endpoint tok)
    as [e|response] eqn:Hreq; cbv beta iota.
  - right. exists tok. split; [reflexivity|].
    right. right. exists e. repeat split; solve [reflexivity | exact Hreq].
  - destruct (Z.eqb_spec (frontend.status_code response) 401) as [H401|Hne];
      cbv beta iota; right; exists tok; (split; [reflexivity|]).
    + left. exists response.
      repeat split; solve [reflexivity | exact Hreq | exact H401].
    + right. left. exists response.
      repeat split; solve [reflexivity | exact Hreq | exact Hne].
Qed.

End ClientRequests.

(** ** Start-up of the backend *)

Section Startup.
Context {pwd_context : CryptContext} {signer : jwt.Signer}.

(** X20. When [ENVIRONMENT] is unset or is ["development"], starting the
    backend empties both tables: afterwards no token resolves, however
    fresh and well signed, and no credentials log in.  With any other
    value the tables are the ones found. *)
Theorem development_start_forgets_accounts
        (environ : auth.Environ) (db : Session)
        (Hdev : database.getenv environ "ENVIRONMENT" "development"
                = "development") :
  users (database.init_db environ db) = []
  /\ items (database.init_db environ db) = []
  /\ (forall token now,
         fst (main.serve_read_users_me token now (database.init_db environ db))
         = main.JSONResponse 401
                             (main.Detail "Could not validate credentials"))
  /\ (forall username password t t',
         fst (main.serve_login_for_access_token
                username password t t' (database.init_db environ db))
         = invalid_credentials).
Proof.
  assert (Hinit : database.init_db environ db
                  = {| users := []; items := [];
                       statements := statements db |}).
  { unfold database.init_db. rewrite Hdev. reflexivity. }
  rewrite Hinit. split; [reflexivity|]. split; [reflexivity|]. split.
  - intros token now.
    assert (H : fst (auth.get_current_user token now
                       {| users := []; items := [];
                          statements := statements db |})
                = inl auth.credentials_exception).
    { rewrite get_current_user_cases. simpl users.
      destruct (jwt.decode token auth.SECRET_KEY [auth.ALGORITHM] now)
        as [e|payload]; [reflexivity|].
      destruct (dict_get payload "sub") as [[s|z|t]|]; reflexivity. }
    unfold main.serve_read_users_me, main.respond, main.read_users_me,
      auth.get_current_active_user, bind.
    destruct (auth.get_current_user token now _) as [r db'].
    simpl in H. subst r. reflexivity.
  - intros username password t t'. apply post_token_refused.
    rewrite authenticate_user_lookup. simpl.
    destruct (contains_char "@"%char username); reflexivity.
Qed.

(** With another value of [ENVIRONMENT] the store is kept. *)
Lemma production_start_keeps_store (environ : auth.Environ) (db : Session) :
  database.getenv environ "ENVIRONMENT" "development" <> "development" ->
  database.init_db environ db = db.
Proof.
  intros H. unfold database.init_db.
  apply String.eqb_neq in H. rewrite H. reflexivity.
Qed.

End Startup.

Lemma minted_token_always_expires_witness :
  fst (auth.get_current_user (signer := sample.signer)
         (auth.create_access_token (signer := sample.signer)
            [("sub", Str "alice"); ("exp", Int 99999999999)] None 0 0)
         (minutes 16) sample.db)
  = inl auth.credentials_exception.
Proof.
  refine (proj2 (minted_token_always_expires (signer := sample.signer)
                   [("sub", Str "alice"); ("exp", Int 99999999999)] None 0 0
                   (minutes 16) sample.db eq_refl _)).
  vm_compute. reflexivity.
Defined.

Lemma forged_token_refused_witness :
  fst (main.serve_read_users_me (signer := sample.signer)
         (jwt.Compact "none" [("sub", Str "alice")] "") 0 sample.db)
  = main.JSONResponse 401 (main.Detail "Could not validate credentials").
Proof.
  apply (forged_token_refused (signer := sample.signer)).
  left. discriminate.
Defined.

Lemma valid_username_never_looked_up_by_email_witness :
  crud.authenticate_user (pwd_context := sample.context)
    "mallory" "Passw0rd1" sample.db
  = (inr None, issue (SelectUserByUsername "mallory") sample.db).
Proof.
  refine (proj2 (valid_username_never_looked_up_by_email
                   (pwd_context := sample.context)
                   "mallory" "Passw0rd1" sample.db eq_refl _)).
  simpl. intuition discriminate.
Defined.

Lemma username_with_final_newline_accepted_witness :
  schemas.username_valid (String.append "alice" (String "010"%char "")) = true.
Proof.
  refine (proj1 (username_with_final_newline_accepted "alice" eq_refl _)).
  simpl. lia.
Defined.

Lemma development_start_forgets_accounts_witness :
  users (database.init_db [] sample.db) = []
  /\ fst (main.serve_login_for_access_token (pwd_context := sample.context)
            (signer := sample.signer) "alice" "Passw0rd1" 0 0
            (database.init_db [("ENVIRONMENT", "development")] sample.db))
     = invalid_credentials.
Proof.
  split.
  - exact (proj1 (development_start_forgets_accounts
                    (pwd_context := sample.context) (signer := sample.signer)
                    [] sample.db eq_refl)).
  - exact (proj2 (proj2 (proj2
             (development_start_forgets_accounts
                (pwd_context := sample.context) (signer := sample.signer)
                [("ENVIRONMENT", "development")] sample.db eq_refl)))
             "alice" "Passw0rd1" 0 0).
Defined.
